(** * ENOR runway selector: a shallow embedding of [runway_selector.py]

    The development follows the source file top to bottom: the Python
    primitives the script relies on (string methods, [int()], [str()],
    text files, [input()]), the data model ([Runway], the [wind_data]
    dictionary), the METAR parser, the wind component calculator, the
    selection policy, the two store writers and [main].

    Modelling conventions.
    - Python [str] is [string]; the texts are taken to be ASCII, so [\d]
      is one of the ten digits and white space is tab, line feed, vertical
      tab, form feed, carriage return or blank.
    - Python [int] is [Z].
    - Python [float] (binary64) is idealised as a real number: no rounding
      and no overflow.  [float('inf')] and [float('-inf')] are the two
      extra points of [pyfloat].
    - Exceptions are values of [exn]; a computation that may raise returns
      a [result].  Code that reads the keyboard or touches files runs in
      the state-and-error monad [M] over a [World] (directory contents and
      pending keyboard lines).  Text written with [print] is not
      modelled, nor is the [try]/[except] that wraps the call of [main]
      at the bottom of the script.
    - [parse_runways] and [get_all_metars] read the catalog file and the
      network; [main] takes the two dictionaries they return as its
      arguments.  The two readers are modelled after the stores, the
      outcome of each network request being an argument of
      [get_all_metars]; [main_from_start] is [main] with its first two
      statements. *)

From Stdlib Require Import ZArith List String Ascii Bool Lia.
From Stdlib Require Import Reals Lra.
From Stdlib Require Import DecimalString.
Import ListNotations.

Open Scope string_scope.
Open Scope Z_scope.

(** ** Python primitives *)

Module Py.

Inductive exn : Type :=
| IndexError
| ValueError
| EOFError
| UnboundLocalError
| TypeError
| FileNotFoundError.

Inductive result (A : Type) : Type :=
| Ok (a : A)
| Raise (e : exn).
Arguments Ok {A} a.
Arguments Raise {A} e.

(** The line feed character and the one-character string ["\n"]. *)
Definition LF : ascii := ascii_of_nat 10.
Definition nl : string := String LF EmptyString.

(** [s.startswith(p)] and [s.endswith(p)]. *)
Fixpoint startswith (s p : string) {struct p} : bool :=
  match p with
  | EmptyString => true
  | String c p' =>
      match s with
      | EmptyString => false
      | String d s' => Ascii.eqb c d && startswith s' p'
      end
  end.

Fixpoint endswith (s p : string) : bool :=
  if String.eqb s p then true
  else match s with
       | EmptyString => false
       | String _ s' => endswith s' p
       end.

(** [sub in s] on strings. *)
Fixpoint contains (sub s : string) : bool :=
  if startswith s sub then true
  else match s with
       | EmptyString => false
       | String _ s' => contains sub s'
       end.

(** [c in chars] for a character and [s.rstrip(chars)]. *)
Fixpoint mem_char (c : ascii) (chars : string) : bool :=
  match chars with
  | EmptyString => false
  | String d chars' => Ascii.eqb c d || mem_char c chars'
  end.

Fixpoint rstrip (s chars : string) : string :=
  match s with
  | EmptyString => EmptyString
  | String c s' =>
      match rstrip s' chars with
      | EmptyString => if mem_char c chars then EmptyString
                       else String c EmptyString
      | r => String c r
      end
  end.

(** [sep.join(l)]. *)
Definition join (sep : string) (l : list string) : string :=
  String.concat sep l.

(** [x in l] for a list (or set) of strings. *)
Definition mem (x : string) (l : list string) : bool :=
  existsb (String.eqb x) l.

(** Truth value of a string: [not s] holds for the empty string. *)
Definition truthy (s : string) : bool :=
  match s with
  | EmptyString => false
  | String _ _ => true
  end.

(** *** [int(s)] for a string, base ten

    Surrounding white space is dropped, one sign is allowed, and the
    digits may be grouped by single underscores.  Anything else raises
    [ValueError]. *)
Definition is_digit (c : ascii) : bool :=
  let n := nat_of_ascii c in (48 <=? n)%nat && (n <=? 57)%nat.

Definition digit_val (c : ascii) : Z := Z.of_nat (nat_of_ascii c) - 48.

Definition is_space (c : ascii) : bool :=
  let n := nat_of_ascii c in
  ((9 <=? n)%nat && (n <=? 13)%nat) || (n =? 32)%nat.

Fixpoint lstrip_space (s : string) : string :=
  match s with
  | String c s' => if is_space c then lstrip_space s' else s
  | EmptyString => EmptyString
  end.

Fixpoint rstrip_space (s : string) : string :=
  match s with
  | EmptyString => EmptyString
  | String c s' =>
      match rstrip_space s' with
      | EmptyString => if is_space c then EmptyString
                       else String c EmptyString
      | r => String c r
      end
  end.

(** Digits after the sign; [prev] tells whether the previous character
    was a digit, which is what an underscore and the end of the text
    require. *)
Fixpoint int_digits (acc : Z) (prev : bool) (s : string) : option Z :=
  match s with
  | EmptyString => if prev then Some acc else None
  | String c s' =>
      if is_digit c then int_digits (10 * acc + digit_val c) true s'
      else if Ascii.eqb c "_" && prev then int_digits acc false s'
      else None
  end.

Definition int (s : string) : result Z :=
  let body := rstrip_space (lstrip_space s) in
  let parsed :=
    match body with
    | EmptyString => None
    | String c ds =>
        if Ascii.eqb c "-" then option_map Z.opp (int_digits 0 false ds)
        else if Ascii.eqb c "+" then int_digits 0 false ds
        else int_digits 0 false body
    end in
  match parsed with
  | Some z => Ok z
  | None => Raise ValueError
  end.

(** [str(n)] for an integer, as an f-string prints it. *)
Definition str (n : Z) : string := NilZero.string_of_int (Z.to_int n).

(** *** Text files

    The text of a file is the string Python reads from it, line ends
    already translated to line feed.  [f.readlines()] cuts the text
    after every line feed and keeps the line feed in the line; a last
    line without one is kept as it is.  [f.writelines(ls)] writes the
    lines one after the other. *)
Fixpoint readlines (text : string) : list string :=
  match text with
  | EmptyString => []
  | String c text' =>
      if Ascii.eqb c LF then nl :: readlines text'
      else match readlines text' with
           | [] => [String c EmptyString]
           | line :: lines => String c line :: lines
           end
  end.

Definition writelines (lines : list string) : string :=
  String.concat EmptyString lines.

(** [lines[i] = v] for an index known to be in range. *)
Fixpoint setitem (lines : list string) (i : nat) (v : string) : list string :=
  match lines, i with
  | [], _ => []
  | _ :: tl, O => v :: tl
  | x :: tl, S j => x :: setitem tl j v
  end.

(** [l[i]] with its [IndexError]. *)
Definition getitem {A : Type} (l : list A) (i : nat) : result A :=
  match nth_error l i with
  | Some x => Ok x
  | None => Raise IndexError
  end.

End Py.
Import Py.

(** ** Idealised floating point *)

Definition Rgtb (x y : R) : bool := if Rgt_dec x y then true else false.
Definition Rltb (x y : R) : bool := if Rlt_dec x y then true else false.
Definition Rleb (x y : R) : bool := if Rle_dec x y then true else false.

Inductive pyfloat : Type :=
| NegInf
| Fin (x : R)
| PosInf.

(** [a < b] and [a > b] on floats. *)
Definition fltb (a b : pyfloat) : bool :=
  match a, b with
  | _, NegInf => false
  | NegInf, _ => true
  | PosInf, _ => false
  | Fin _, PosInf => true
  | Fin x, Fin y => Rltb x y
  end.

Definition fgtb (a b : pyfloat) : bool := fltb b a.

(** ** Data model *)

Record Runway : Type := mkRunway {
  rwy1 : string;
  rwy2 : string;
  hdg1 : Z;
  hdg2 : Z;
  airport : string
}.

(** The value under ['direction'] is either the text ['VRB'] or an integer. *)
Inductive wind_direction : Type :=
| VRB
| Deg (d : Z).

(** The dictionary [parse_metar] builds. *)
Record WindData : Type := mkWind {
  direction : wind_direction;
  speed : Z;
  raw_metar : string
}.

(** What [select_runway] returns first: a designator, the list of
    designators of the ENGM prompt, or [None] when no loop ever assigned
    [best_runway]. *)
Inductive selection : Type :=
| SelNone
| SelOne (rwy : string)
| SelMany (rwys : list string).

(** [dict.get] on a dictionary kept in insertion order. *)
Fixpoint dict_get {A : Type} (d : list (string * A)) (k : string) : option A :=
  match d with
  | [] => None
  | (k', v) :: d' => if String.eqb k k' then Some v else dict_get d' k
  end.

(** ** [parse_metar]

    The pattern is [(VRB|(\d{3}))(\d{2,3})KT], searched from every start
    position, leftmost first; the quantifier [{2,3}] is greedy. *)

(** [\d{n}] at the head of [s]: the digits and the rest. *)
Fixpoint digits (n : nat) (s : string) : option (string * string) :=
  match n with
  | O => Some (EmptyString, s)
  | S n' =>
      match s with
      | EmptyString => None
      | String c s' =>
          if is_digit c then
            match digits n' s' with
            | Some (g, rest) => Some (String c g, rest)
            | None => None
            end
          else None
      end
  end.

(** [\d{k}KT] at the head of [s]: group 3. *)
Definition digits_kt (k : nat) (s : string) : option string :=
  match digits k s with
  | Some (g, rest) => if startswith rest "KT" then Some g else None
  | None => None
  end.

(** [(\d{2,3})KT] at the head of [s]: three digits are tried before two. *)
Definition match_speed (s : string) : option string :=
  match digits_kt 3 s with
  | Some g => Some g
  | None => digits_kt 2 s
  end.

(** [s[n:]]. *)
Fixpoint drop (n : nat) (s : string) : string :=
  match n, s with
  | S n', String _ s' => drop n' s'
  | _, _ => s
  end.

(** The whole pattern at the head of [s]: groups 1 and 3.  The branch
    [VRB] is tried before the three digits. *)
Definition match_wind (s : string) : option (string * string) :=
  let digits_alt :=
    match digits 3 s with
    | Some (g1, rest) =>
        match match_speed rest with
        | Some g3 => Some (g1, g3)
        | None => None
        end
    | None => None
    end in
  if startswith s "VRB" then
    match match_speed (drop 3 s) with
    | Some g3 => Some ("VRB", g3)
    | None => digits_alt
    end
  else digits_alt.

Fixpoint re_search (s : string) : option (string * string) :=
  match match_wind s with
  | Some m => Some m
  | None =>
      match s with
      | EmptyString => None
      | String _ s' => re_search s'
      end
  end.

(** The result is [None] or the dictionary; the [try] turns any exception
    of the two [int] calls into [None]. *)
Definition parse_metar (metar : string) : option WindData :=
  if negb (truthy metar) then None
  else
    match re_search metar with
    | None => None
    | Some (g1, g3) =>
        match Py.int g3 with
        | Raise _ => None
        | Ok spd =>
            if String.eqb g1 "VRB" then Some (mkWind VRB spd metar)
            else match Py.int g1 with
                 | Raise _ => None
                 | Ok d => Some (mkWind (Deg d) spd metar)
                 end
        end
    end.

(** ** [calculate_wind_components] *)

(** [math.radians]. *)
Definition radians (x : Z) : R := (IZR x * (PI / 180))%R.

Definition calculate_wind_components (runway_hdg wind_dir wind_speed : Z)
  : R * R :=
  let runway_rad := radians runway_hdg in
  let wind_rad := radians wind_dir in
  let headwind := (IZR wind_speed * cos (wind_rad - runway_rad))%R in
  let crosswind := (IZR wind_speed * sin (wind_rad - runway_rad))%R in
  (headwind, Rabs crosswind).

(** ** [select_runway_enzv]

    No caller exists in the script.  With a ['VRB'] direction
    [math.radians] is handed a string and raises [TypeError]. *)
Definition select_runway_enzv (wind_data : option WindData) : result string :=
  match wind_data with
  | None => Ok "18"
  | Some wd =>
      match direction wd with
      | VRB => Raise TypeError
      | Deg d =>
          let '(rwy18_hw, rwy18_xw) := calculate_wind_components 177 d (speed wd) in
          let '(rwy36_hw, rwy36_xw) := calculate_wind_components 357 d (speed wd) in
          let '(rwy10_hw, rwy10_xw) := calculate_wind_components 100 d (speed wd) in
          let '(rwy28_hw, rwy28_xw) := calculate_wind_components 280 d (speed wd) in
          let best_18_36 := if Rgtb rwy18_hw rwy36_hw then "18" else "36" in
          let best_18_36_xw :=
            if String.eqb best_18_36 "18" then rwy18_xw else rwy36_xw in
          if Rgtb best_18_36_xw 15
          then Ok (if Rgtb rwy10_hw rwy28_hw then "10" else "28")
          else Ok best_18_36
      end
  end.

(** ** Static tables *)

(** Preferred runways for when wind direction cannot be determined. *)
Definition PREFERRED_RUNWAYS : list (string * string) :=
  [ ("ENBR", "17"); ("ENTO", "18"); ("ENRY", "30"); ("ENZV", "18");
    ("ENHD", "13"); ("ENAL", "24"); ("ENML", "07"); ("ENKB", "07");
    ("ENVA", "09"); ("ENBO", "07"); ("ENTC", "18"); ("ENCN", "21");
    ("ENRO", "31"); ("ENSG", "24"); ("ENFL", "07"); ("ENEV", "17");
    ("ENDU", "28"); ("ENAT", "11"); ("ENNA", "34"); ("ENKR", "24");
    ("ENSB", "09"); ("ENNO", "12"); ("ENSD", "26"); ("ENSO", "14");
    ("ENMS", "33"); ("ENBN", "03"); ("ENST", "20"); ("ENRA", "31");
    ("ENLK", "02"); ("ENSH", "36"); ("ENAN", "14"); ("ENOL", "15") ].

(** Airports to ignore (uncontrolled/no METAR). *)
Definition IGNORED_AIRPORTS : list string :=
  [ "ENRE"; "ENGK"; "ENLI"; "ENKJ"; "ENHA"; "ENEG"; "ENJA"; "ENBM"; "ENAX" ].

(** ** The world the script runs in *)

Record World : Type := mkWorld {
  files : list (string * string);   (* the directory: name and text *)
  stdin : list string               (* lines the operator will type *)
}.

Definition M (A : Type) : Type := World -> result A * World.

Definition ret {A : Type} (a : A) : M A := fun w => (Ok a, w).

Definition bind {A B : Type} (m : M A) (k : A -> M B) : M B :=
  fun w =>
    match m w with
    | (Ok a, w') => k a w'
    | (Raise e, w') => (Raise e, w')
    end.

Definition lift {A : Type} (r : result A) : M A := fun w => (r, w).

Definition rbind {A B : Type} (r : result A) (k : A -> result B) : result B :=
  match r with
  | Ok a => k a
  | Raise e => Raise e
  end.

Notation "x <- m ;; k" := (bind m (fun x => k))
  (at level 61, m at next level, right associativity).
Notation "' pat <- m ;; k" := (bind m (fun x => match x with pat => k end))
  (at level 61, pat pattern, m at next level, right associativity).
Notation "'let*' x ':=' r 'in' k" := (rbind r (fun x => k))
  (at level 10, x name, r at level 100, k at level 200).

(** [for x in xs: body(x)]. *)
Fixpoint for_each {A : Type} (xs : list A) (body : A -> M unit) : M unit :=
  match xs with
  | [] => ret tt
  | x :: xs' => _ <- body x ;; for_each xs' body
  end.

(** [input()]: the next line, or [EOFError] when none is left. *)
Definition input : M string :=
  fun w =>
    match stdin w with
    | [] => (Raise EOFError, w)
    | line :: rest => (Ok line, mkWorld (files w) rest)
    end.

(** [open(filename, 'r')] followed by [readlines()]. *)
Definition read_lines (filename : string) : M (list string) :=
  fun w =>
    match dict_get (files w) filename with
    | Some text => (Ok (readlines text), w)
    | None => (Raise FileNotFoundError, w)
    end.

Fixpoint dict_set {A : Type} (d : list (string * A)) (k : string) (v : A)
  : list (string * A) :=
  match d with
  | [] => [(k, v)]
  | (k', v') :: d' =>
      if String.eqb k k' then (k, v) :: d' else (k', v') :: dict_set d' k v
  end.

(** [open(filename, 'w')] followed by [writelines(lines)]. *)
Definition write_lines (filename : string) (lines : list string) : M unit :=
  fun w =>
    (Ok tt, mkWorld (dict_set (files w) filename (writelines lines)) (stdin w)).

(** ** [get_engm_config] *)

Definition engm_config (choice : string) : list string * string :=
  if String.eqb choice "1" then (["19L"; "19R"], "MPO")
  else if String.eqb choice "2" then (["01L"; "01R"], "MPO")
  else if String.eqb choice "3" then (["19L"; "19R"], "SPO")
  else if String.eqb choice "4" then (["01L"; "01R"], "SPO")
  else if String.eqb choice "5" then (["19R"], "SRO")
  else (["01L"], "SRO").

(** The [while True] loop over the typed lines: an invalid line asks
    again, the first valid one returns, and running out of lines is the
    [EOFError] of [input()]. *)
Fixpoint engm_prompt (lines : list string)
  : result (list string * string) * list string :=
  match lines with
  | [] => (Raise EOFError, [])
  | choice :: rest =>
      if mem choice ["1"; "2"; "3"; "4"; "5"; "6"]
      then (Ok (engm_config choice), rest)
      else engm_prompt rest
  end.

Definition get_engm_config : M (list string * string) :=
  fun w =>
    let (r, rest) := engm_prompt (stdin w) in
    (r, mkWorld (files w) rest).

(** ** [update_engm_runways] *)

(** The [enumerate] loop: the last line of each kind is remembered. *)
Fixpoint find_engm_lines (lines : list string) (i : nat)
    (arr_line_idx dep_line_idx : option nat) : option nat * option nat :=
  match lines with
  | [] => (arr_line_idx, dep_line_idx)
  | line :: lines' =>
      if startswith line "ENGM_ARR"
      then find_engm_lines lines' (S i) (Some i) dep_line_idx
      else if startswith line "ENGM_DEP"
      then find_engm_lines lines' (S i) arr_line_idx (Some i)
      else find_engm_lines lines' (S i) arr_line_idx dep_line_idx
  end.

Definition update_engm_runways (filename : string) (runways : list string)
    (mode : string) : M unit :=
  lines <- read_lines filename ;;
  match find_engm_lines lines 0 None None with
  | (Some arr_line_idx, Some dep_line_idx) =>
      new_lines <- lift
        (if String.eqb mode "SPO" then
           let* r0 := getitem runways 0 in
           if contains "19" r0
           then Ok (setitem (setitem lines arr_line_idx ("ENGM_ARR:19R" ++ nl))
                      dep_line_idx ("ENGM_DEP:19L" ++ nl))
           else Ok (setitem (setitem lines arr_line_idx ("ENGM_ARR:01R" ++ nl))
                      dep_line_idx ("ENGM_DEP:01L" ++ nl))
         else if String.eqb mode "MPO" then
           let* r0 := getitem runways 0 in
           let* r1 := getitem runways 1 in
           Ok (setitem
                 (setitem lines arr_line_idx
                    ("ENGM_ARR:" ++ r0 ++ "," ++ r1 ++ nl))
                 dep_line_idx ("ENGM_DEP:" ++ r0 ++ "," ++ r1 ++ nl))
         else
           let* r0 := getitem runways 0 in
           Ok (setitem (setitem lines arr_line_idx ("ENGM_ARR:" ++ r0 ++ nl))
                 dep_line_idx ("ENGM_DEP:" ++ r0 ++ nl))) ;;
      write_lines filename new_lines
  | _ => ret tt
  end.

(** ** [select_runway] *)

(** [int(rwy.rstrip('LRC'))]. *)
Definition designator_number (rwy : string) : result Z :=
  Py.int (rstrip rwy "LRC").

(** The list comprehension of the variable-wind branch. *)
Fixpoint runway_numbers (runway_data : list Runway) : result (list Z) :=
  match runway_data with
  | [] => Ok []
  | r :: runway_data' =>
      let* n1 := designator_number (rwy1 r) in
      let* n2 := designator_number (rwy2 r) in
      let* rest := runway_numbers runway_data' in
      Ok (Z.min n1 n2 :: rest)
  end.

(** [min] of a list of integers; an empty list raises [ValueError]. *)
Definition py_min (l : list Z) : result Z :=
  match l with
  | [] => Raise ValueError
  | x :: l' => Ok (fold_left Z.min l' x)
  end.

(** The loop that assigns [selected]; there is no [break], so a later
    runway overwrites an earlier one. *)
Fixpoint pick_lowest (runway_data : list Runway) (lowest_rwy : Z)
    (selected : option string) : result (option string) :=
  match runway_data with
  | [] => Ok selected
  | runway :: runway_data' =>
      let* n1 := designator_number (rwy1 runway) in
      if n1 =? lowest_rwy
      then pick_lowest runway_data' lowest_rwy (Some (rwy1 runway))
      else
        let* n2 := designator_number (rwy2 runway) in
        if n2 =? lowest_rwy
        then pick_lowest runway_data' lowest_rwy (Some (rwy2 runway))
        else pick_lowest runway_data' lowest_rwy selected
  end.

(** Maximum acceptable crosswind component. *)
Definition max_crosswind : R := 25%R.

(** One turn of the first loop of the directional branch, on the pair
    ([best_runway], [best_headwind]). *)
Definition scan_runway (wind_dir wind_speed : Z)
    (st : option string * pyfloat) (runway : Runway)
  : option string * pyfloat :=
  let '(hdg1_hw, hdg1_xw) :=
    calculate_wind_components (hdg1 runway) wind_dir wind_speed in
  let '(hdg2_hw, hdg2_xw) :=
    calculate_wind_components (hdg2 runway) wind_dir wind_speed in
  if Rgtb (Rmin hdg1_xw hdg2_xw) max_crosswind then st
  else if Rgtb hdg1_hw hdg2_hw then
    if fgtb (Fin hdg1_hw) (snd st) && Rleb hdg1_xw max_crosswind
    then (Some (rwy1 runway), Fin hdg1_hw)
    else st
  else
    if fgtb (Fin hdg2_hw) (snd st) && Rleb hdg2_xw max_crosswind
    then (Some (rwy2 runway), Fin hdg2_hw)
    else st.

(** One turn of the fallback loop, on the pair ([best_runway],
    [min_crosswind]). *)
Definition fallback_runway (wind_dir wind_speed : Z)
    (st : option string * pyfloat) (runway : Runway)
  : option string * pyfloat :=
  let '(_, hdg1_xw) :=
    calculate_wind_components (hdg1 runway) wind_dir wind_speed in
  let '(_, hdg2_xw) :=
    calculate_wind_components (hdg2 runway) wind_dir wind_speed in
  let st1 :=
    if fltb (Fin hdg1_xw) (snd st) then (Some (rwy1 runway), Fin hdg1_xw)
    else st in
  if fltb (Fin hdg2_xw) (snd st1) then (Some (rwy2 runway), Fin hdg2_xw)
  else st1.

(** [not best_runway]: true for [None] and for the empty string. *)
Definition falsy (best_runway : option string) : bool :=
  match best_runway with
  | None => true
  | Some s => negb (truthy s)
  end.

(** How an f-string prints [best_runway]. *)
Definition format_best (best_runway : option string) : string :=
  match best_runway with
  | None => "None"
  | Some s => s
  end.

Definition selection_of (best_runway : option string) : selection :=
  match best_runway with
  | None => SelNone
  | Some s => SelOne s
  end.

Definition is_vrb (d : wind_direction) : bool :=
  match d with
  | VRB => true
  | Deg _ => false
  end.

(** The test that sends ENGM to the operator. *)
Definition engm_special (airport : string) (wd : WindData) : bool :=
  String.eqb airport "ENGM"
  && (is_vrb (direction wd) || contains "FZFG" (raw_metar wd)).

Definition select_runway (airport : string) (runway_data : list Runway)
    (wind_data : option WindData) : M (selection * string * bool) :=
  match wind_data with
  | None =>
      match dict_get PREFERRED_RUNWAYS airport with
      | Some selected =>
          ret (SelOne selected,
               "No wind data available - using preferred runway " ++ selected,
               true)
      | None =>
          r0 <- lift (getitem runway_data 0) ;;
          let selected := rwy1 r0 in
          ret (SelOne selected,
               "No wind data available - defaulting to runway " ++ selected,
               true)
      end
  | Some wd =>
      if engm_special airport wd then
        ' (runways, mode) <- get_engm_config ;;
        ret (SelMany runways,
             "Using " ++ mode ++ " mode with runways " ++ join ", " runways,
             true)
      else
        match direction wd with
        | VRB =>
            match dict_get PREFERRED_RUNWAYS airport with
            | Some selected =>
                ret (SelOne selected,
                     "Wind is " ++ raw_metar wd
                       ++ ", using preferred runway " ++ selected,
                     true)
            | None =>
                lift
                  (let* numbers := runway_numbers runway_data in
                   let* lowest_rwy := py_min numbers in
                   let* picked := pick_lowest runway_data lowest_rwy None in
                   match picked with
                   | None => Raise UnboundLocalError
                   | Some selected =>
                       Ok (SelOne selected,
                           "Wind is " ++ raw_metar wd
                             ++ ", no preferred runway - using runway "
                             ++ selected,
                           true)
                   end)
            end
        | Deg d =>
            let s := speed wd in
            let found :=
              fst (fold_left (scan_runway d s) runway_data (None, NegInf)) in
            let '(best_runway, should_print) :=
              if falsy found
              then (fst (fold_left (fallback_runway d s) runway_data
                           (found, PosInf)), true)
              else (found, false) in
            ret (selection_of best_runway,
                 "Selected runway " ++ format_best best_runway
                   ++ " based on wind " ++ Py.str d ++ "@" ++ Py.str s ++ "KT",
                 should_print)
        end
  end.

(** ** [update_rwy_file] *)

(** How the f-string prints the [runway] argument; a list only reaches
    [update_rwy_file] for an airport other than ENGM, which the policy
    never produces. *)
Definition format_selection (runway : selection) : string :=
  match runway with
  | SelNone => "None"
  | SelOne s => s
  | SelMany l => "[" ++ join ", " (map (fun s => "'" ++ s ++ "'") l) ++ "]"
  end.

Definition active_prefix (airport : string) : string :=
  "ACTIVE_RUNWAY:" ++ airport ++ ":".

Definition active_record (airport runway flag : string) : string :=
  "ACTIVE_RUNWAY:" ++ airport ++ ":" ++ runway ++ ":" ++ flag ++ nl.

Definition update_rwy_file (filename airport : string) (runway : selection)
  : M unit :=
  lines <- read_lines filename ;;
  let new_lines :=
    filter (fun line => negb (startswith line (active_prefix airport))) lines in
  let new_lines :=
    (new_lines ++ [active_record airport (format_selection runway) "1"])%list in
  let new_lines :=
    (new_lines ++ [active_record airport (format_selection runway) "0"])%list in
  write_lines filename new_lines.

(** ** [main]

    [runways] stands for the dictionary [parse_runways('runway.txt')]
    returns, in insertion order, and [all_metars] for the dictionary
    [get_all_metars()] returns. *)

(** [[f for f in os.listdir() if f.endswith('.rwy')]]. *)
Definition list_rwy_files : M (list string) :=
  fun w =>
    (Ok (filter (fun f => endswith f ".rwy") (map fst (files w))), w).

(** The closing [try: input() except: pass]. *)
Definition wait_enter : M unit :=
  fun w =>
    match input w with
    | (_, w') => (Ok tt, w')
    end.

(** The body of the loop over airports. *)
Definition process_airport (rwy_files : list string)
    (all_metars : list (string * WindData))
    (airport : string) (runway_data : list Runway) : M unit :=
  if mem airport IGNORED_AIRPORTS then ret tt
  else
    match dict_get all_metars airport with
    | Some wind_data =>
        ' (selected_runway, message, should_print) <-
          select_runway airport runway_data (Some wind_data) ;;
        for_each rwy_files (fun rwy_file =>
          match selected_runway with
          | SelMany runways =>
              if String.eqb airport "ENGM" then
                let mode :=
                  if contains "Segregated" message then "SPO"
                  else if contains "MPO" message then "MPO"
                  else "SRO" in
                update_engm_runways rwy_file runways mode
              else update_rwy_file rwy_file airport selected_runway
          | _ => update_rwy_file rwy_file airport selected_runway
          end)
    | None => ret tt
    end.

Definition main (runways : list (string * list Runway))
    (all_metars : list (string * WindData)) : M unit :=
  rwy_files <- list_rwy_files ;;
  match rwy_files with
  | [] => ret tt
  | _ =>
      _ <- for_each runways (fun entry =>
             process_airport rwy_files all_metars (fst entry) (snd entry)) ;;
      wait_enter
  end.

(** ** Vocabulary of the statements *)

(** *** The wind group in the words of the specification

    Either the variable marker or a three-digit direction, then a speed of
    two or three digits, then the knots marker, anywhere in the text. *)

Fixpoint all_digits (s : string) : bool :=
  match s with
  | EmptyString => true
  | String c s' => is_digit c && all_digits s'
  end.

Definition direction_token (g : string) : Prop :=
  g = "VRB" \/ (String.length g = 3%nat /\ all_digits g = true).

Definition speed_token (g : string) : Prop :=
  (String.length g = 2%nat \/ String.length g = 3%nat) /\ all_digits g = true.

(** [text] holds a wind group with direction [g1] and speed [g3] right
    after [pre]. *)
Definition wind_group (text pre g1 g3 : string) : Prop :=
  direction_token g1 /\ speed_token g3 /\
  exists post, text = pre ++ g1 ++ g3 ++ "KT" ++ post.

Definition has_wind_group (text : string) : Prop :=
  exists pre g1 g3, wind_group text pre g1 g3.

(** *** Headings and their components *)

Definition headwind (hdg wind_dir wind_speed : Z) : R :=
  fst (calculate_wind_components hdg wind_dir wind_speed).

Definition crosswind (hdg wind_dir wind_speed : Z) : R :=
  snd (calculate_wind_components hdg wind_dir wind_speed).


(** The designators of a catalog, in catalog order. *)
Definition designators (runway_data : list Runway) : list string :=
  flat_map (fun r => [rwy1 r; rwy2 r]) runway_data.






(** *** Numbers of designators *)

(** The number of a designator, [0] standing in where [int] raises. *)
Definition number_of (rwy : string) : Z :=
  match designator_number rwy with
  | Ok n => n
  | Raise _ => 0
  end.

(** Every designator of the catalog has a number. *)
Definition all_numbered (rd : list Runway) : Prop :=
  forall d, In d (designators rd) -> exists n, designator_number d = Ok n.

(** The lower of the two numbers of a runway. *)
Definition runway_low (r : Runway) : Z :=
  Z.min (number_of (rwy1 r)) (number_of (rwy2 r)).

(** In the words of the claim on variable wind: the designator with the
    lowest number, the first one in catalog order among equals. *)
Fixpoint first_lowest (rwys : list string) : option string :=
  match rwys with
  | [] => None
  | rwy :: rwys' =>
      match first_lowest rwys' with
      | Some rwy' => if number_of rwy' <? number_of rwy then Some rwy'
                     else Some rwy
      | None => Some rwy
      end
  end.

(** *** The operator and the stores *)

(** The operator's lines hold a valid choice. *)
Definition answers (lines : list string) : Prop :=
  exists choice,
    In choice lines /\ mem choice ["1"; "2"; "3"; "4"; "5"; "6"] = true.


(** A text whose last line, if any, ends with a line feed. *)
Fixpoint terminated (text : string) : bool :=
  match text with
  | EmptyString => true
  | String c EmptyString => Ascii.eqb c LF
  | String _ text' => terminated text'
  end.

(** A string without line feed. *)
Fixpoint no_lf (s : string) : bool :=
  match s with
  | EmptyString => true
  | String c s' => negb (Ascii.eqb c LF) && no_lf s'
  end.

(** A complete line: a body without line feed, then the line feed. *)
Definition complete_line (line : string) : Prop :=
  exists body, line = body ++ nl /\ no_lf body = true.

(** A line keyed to [airport] in the active-runway store. *)
Definition keyed_to (airport line : string) : bool :=
  startswith line (active_prefix airport).

(** What [update_rwy_file] leaves in the file, as a function of the text
    it finds there. *)
Definition updated_text (text airport : string) (runway : selection) : string :=
  writelines
    ((filter (fun line => negb (keyed_to airport line)) (readlines text)
        ++ [active_record airport (format_selection runway) "1"])
       ++ [active_record airport (format_selection runway) "0"])%list.

(** ** Catalogs, observations and stores of the examples *)


Definition engm_catalog : list Runway :=
  [ mkRunway "01L" "19R" 14 194 "ENGM"; mkRunway "01R" "19L" 14 194 "ENGM" ].

(** Two parallel runways at an airport without preferred runway. *)
Definition parallel_catalog : list Runway :=
  [ mkRunway "01L" "19R" 14 194 "ESKS";
    mkRunway "01R" "19L" 14 194 "ESKS" ].

(** The two runways of ENZV, a wind along runway 10, and a store. *)
Definition enzv_catalog : list Runway :=
  [ mkRunway "18" "36" 177 357 "ENZV"; mkRunway "10" "28" 100 280 "ENZV" ].

Definition enzv_wind : WindData :=
  mkWind (Deg 100) 10 "ENZV 121250Z 10010KT 9999".

Definition enzv_world : World :=
  mkWorld [("stavanger.rwy", "ACTIVE_RUNWAY:ENZV:36:1" ++ nl
                               ++ "ACTIVE_RUNWAY:ENZV:36:0" ++ nl)] [].

(** A store with the ENGM records and the records of ENBR; a directory
    with two such target files and one file that is no target. *)
Definition engm_store : string :=
  "ENGM_ARR:01L" ++ nl ++ "ENGM_DEP:01L" ++ nl
    ++ "ACTIVE_RUNWAY:ENBR:35:1" ++ nl ++ "ACTIVE_RUNWAY:ENBR:35:0" ++ nl.

Definition two_stores : list (string * string) :=
  [ ("oslo.rwy", engm_store); ("notes.txt", "keep"); ("backup.rwy", engm_store) ].

(** A store whose last record has no line feed. *)
Definition unterminated_store : string :=
  "ACTIVE_RUNWAY:ENGM:01L:1" ++ nl ++ "ACTIVE_RUNWAY:ENGM:01L:0".

(** ** The catalog reader and the feed reader *)

(** White space of [str.strip()] and [str.split()]: the ASCII characters
    for which [str.isspace()] holds. *)
Definition is_blank (c : ascii) : bool :=
  let n := nat_of_ascii c in
  ((9 <=? n)%nat && (n <=? 13)%nat) || ((28 <=? n)%nat && (n <=? 32)%nat).

Fixpoint lstrip_blank (s : string) : string :=
  match s with
  | String c s' => if is_blank c then lstrip_blank s' else s
  | EmptyString => EmptyString
  end.

Fixpoint rstrip_blank (s : string) : string :=
  match s with
  | EmptyString => EmptyString
  | String c s' =>
      match rstrip_blank s' with
      | EmptyString => if is_blank c then EmptyString
                       else String c EmptyString
      | r => String c r
      end
  end.

(** [s.strip()]. *)
Definition strip (s : string) : string := rstrip_blank (lstrip_blank s).

(** [s.split()]: the runs of characters that are not white space. *)
Fixpoint split (s : string) : list string :=
  match s with
  | EmptyString => []
  | String c s' =>
      if is_blank c then split s'
      else
        match s' with
        | EmptyString => [String c EmptyString]
        | String d _ =>
            if is_blank d then String c EmptyString :: split s'
            else
              match split s' with
              | tok :: toks => String c tok :: toks
              | [] => [String c EmptyString]
              end
        end
  end.

(** [s.split('\n')]: one more piece than there are line feeds. *)
Fixpoint split_lf (s : string) : list string :=
  match s with
  | EmptyString => [EmptyString]
  | String c s' =>
      if Ascii.eqb c LF then EmptyString :: split_lf s'
      else
        match split_lf s' with
        | piece :: pieces => String c piece :: pieces
        | [] => [String c EmptyString]
        end
  end.

(** *** [parse_runways] *)

(** What one line of the catalog contributes: nothing for a blank line, a
    line that starts with a bracket or a line of fewer than nine fields;
    otherwise the [Runway] built from fields 0 to 3 and 8, or the
    [ValueError] of [int]. *)
Definition runway_of_line (line : string) : result (option Runway) :=
  if truthy (strip line) && negb (startswith line "[") then
    let parts := split (strip line) in
    if (9 <=? List.length parts)%nat then
      let* airport := getitem parts 8 in
      let* p0 := getitem parts 0 in
      let* p1 := getitem parts 1 in
      let* p2 := getitem parts 2 in
      let* h1 := Py.int p2 in
      let* p3 := getitem parts 3 in
      let* h2 := Py.int p3 in
      Ok (Some (mkRunway p0 p1 h1 h2 airport))
    else Ok None
  else Ok None.

(** [if airport not in runways: runways[airport] = []] followed by
    [runways[airport].append(runway)]. *)
Fixpoint dict_append (runways : list (string * list Runway)) (airport : string)
    (runway : Runway) : list (string * list Runway) :=
  match runways with
  | [] => [(airport, [runway])]
  | (k, l) :: runways' =>
      if String.eqb airport k then (k, (l ++ [runway])%list) :: runways'
      else (k, l) :: dict_append runways' airport runway
  end.

(** The loop over the lines of the file. *)
Fixpoint parse_runways_lines (lines : list string)
    (runways : list (string * list Runway))
  : result (list (string * list Runway)) :=
  match lines with
  | [] => Ok runways
  | line :: lines' =>
      let* row := runway_of_line line in
      match row with
      | Some runway =>
          parse_runways_lines lines' (dict_append runways (airport runway) runway)
      | None => parse_runways_lines lines' runways
      end
  end.

Definition parse_runways (filename : string)
  : M (list (string * list Runway)) :=
  lines <- read_lines filename ;;
  lift (parse_runways_lines lines []).

(** *** [get_all_metars] *)

(** What [requests.get] gives: an exception, or a response with its
    status code and text. *)
Inductive fetch : Type :=
| FetchError
| Response (status_code : Z) (text : string).

(** The loop over the reports of the Norwegian feed.  The dictionary is
    filled in place, so what was stored before an exception stays; the
    flag tells whether the loop ran to its end.  [metar.split()[0]] raises
    [IndexError] on a report without any field. *)
Fixpoint collect_metars (reports : list string)
    (metars : list (string * WindData)) : list (string * WindData) * bool :=
  match reports with
  | [] => (metars, true)
  | metar :: reports' =>
      match getitem (split metar) 0 with
      | Raise _ => (metars, false)
      | Ok icao =>
          match parse_metar metar with
          | Some wind_data =>
              collect_metars reports' (dict_set metars icao wind_data)
          | None => collect_metars reports' metars
          end
      end
  end.

(** [norway] and [esks] are the outcomes of the two requests; the second
    request is only made when nothing was raised before it. *)
Definition get_all_metars (norway esks : fetch) : list (string * WindData) :=
  match norway with
  | FetchError => []
  | Response status_code text =>
      let '(metars, completed) :=
        if status_code =? 200
        then collect_metars (split_lf (strip text)) []
        else ([], true) in
      if completed then
        match esks with
        | FetchError => metars
        | Response status_code' text' =>
            if status_code' =? 200 then
              match parse_metar (strip text') with
              | Some wind_data => dict_set metars "ESKS" wind_data
              | None => metars
              end
            else metars
        end
      else metars
  end.

(** *** [main] from its first statement

    The catalog is read from [runway.txt], then the feed is fetched, then
    the body modelled by [main] runs. *)
Definition main_from_start (norway esks : fetch) : M unit :=
  runways <- parse_runways "runway.txt" ;;
  main runways (get_all_metars norway esks).

(** ** Vocabulary of the further statements *)

(** One of the six answers the prompt accepts. *)
Definition valid_choice (choice : string) : bool :=
  mem choice ["1"; "2"; "3"; "4"; "5"; "6"].

(** A string without colon. *)
Fixpoint no_colon (s : string) : bool :=
  match s with
  | EmptyString => true
  | String c s' => negb (Ascii.eqb c ":") && no_colon s'
  end.

(** A string without white space. *)
Fixpoint no_blank (s : string) : bool :=
  match s with
  | EmptyString => true
  | String c s' => negb (is_blank c) && no_blank s'
  end.

(** The runways of the lines of a catalog that contribute one, in the
    order of the lines. *)
Definition catalog_rows (lines : list string) : list Runway :=
  flat_map (fun line =>
              match runway_of_line line with
              | Ok (Some runway) => [runway]
              | _ => []
              end) lines.

(** Two worlds with the same file names that differ at most in the files
    named in [names] (and in the keyboard). *)
Definition same_outside (names : list string) (w w' : World) : Prop :=
  map fst (files w') = map fst (files w) /\
  forall name, ~ In name names ->
    dict_get (files w') name = dict_get (files w) name.

(** The index, counted from [i], of the last line satisfying [p];
    [found] when there is none. *)
Fixpoint last_index (p : string -> bool) (lines : list string) (i : nat)
    (found : option nat) : option nat :=
  match lines with
  | [] => found
  | line :: lines' =>
      last_index p lines' (S i) (if p line then Some i else found)
  end.

(** Line [a] of [lines] starts with [marker] and no later line does. *)
Definition last_with (marker : string) (lines : list string) (a : nat) : Prop :=
  (exists la, nth_error lines a = Some la /\ startswith la marker = true) /\
  forall j l, (a < j)%nat -> nth_error lines j = Some l ->
              startswith l marker = false.

(** No line of [lines] starts with [marker]. *)
Definition none_with (marker : string) (lines : list string) : Prop :=
  forall l, In l lines -> startswith l marker = false.

(** A field as [str.split()] gives it: not empty, without white space. *)
Definition token (s : string) : Prop := s <> "" /\ no_blank s = true.

(** A runway as the catalog reader files it under the key [k]: [k] is
    its own airport, and the airport and the two designators are
    fields of a line. *)
Definition read_runway (k : string) (r : Runway) : Prop :=
  airport r = k /\ token (airport r) /\ token (rwy1 r) /\ token (rwy2 r).

(** The list filed under [k], empty when [k] is no key. *)
Definition rows_of (runways : list (string * list Runway)) (k : string)
  : list Runway :=
  match dict_get runways k with
  | Some l => l
  | None => []
  end.

(** The runways of [rows] located at [k]. *)
Definition located_at (k : string) (rows : list Runway) : list Runway :=
  filter (fun r => String.eqb (airport r) k) rows.

(** A catalog file with a section header, two runways of ENGM around one
    of ENBR, a short line and a blank line. *)
Definition catalog_file : string :=
  "[RUNWAY]" ++ nl
  ++ "01L 19R 014 194 N060.11.06.000 E011.04.25.000 N060.12.58.000 E011.05.29.000 ENGM" ++ nl
  ++ "17 35 170 350 N060.18.09.000 E005.13.05.000 N060.16.38.000 E005.13.28.000 ENBR" ++ nl
  ++ "; comment" ++ nl
  ++ nl
  ++ "01R 19L 014 194 N060.10.30.000 E011.06.27.000 N060.12.10.000 E011.07.20.000 ENGM" ++ nl.

(** A Norwegian feed with three reports of ENBR, the last of them
    without wind group. *)
Definition feed_text : string :=
  "ENBR 121250Z 17008KT 9999" ++ nl
  ++ "ENGM 121250Z VRB02KT CAVOK" ++ nl
  ++ "ENBR 121320Z 35012KT 9999" ++ nl
  ++ "ENBR 121350Z /////KT 9999" ++ nl.


(** * The primitives and the parser on concrete inputs *)

Example int_designator : designator_number "01L" = Ok 1.
Proof. reflexivity. Qed.

Example int_helipad : designator_number "H1" = Raise ValueError.
Proof. reflexivity. Qed.

Example str_negative : Py.str (-5) = "-5".
Proof. reflexivity. Qed.

Example readlines_last_line :
  readlines ("a" ++ nl ++ nl ++ "bc") = ["a" ++ nl; nl; "bc"].
Proof. reflexivity. Qed.

Example parse_metar_variable :
  parse_metar "ENGM 121250Z VRB05KT 9999"
  = Some (mkWind VRB 5 "ENGM 121250Z VRB05KT 9999").
Proof. reflexivity. Qed.

Example parse_metar_three_digit_speed :
  parse_metar "ENBR 121250Z 010123KT"
  = Some (mkWind (Deg 10) 123 "ENBR 121250Z 010123KT").
Proof. reflexivity. Qed.

Example parse_metar_leftmost :
  parse_metar "1234567KT" = Some (mkWind (Deg 234) 567 "1234567KT").
Proof. reflexivity. Qed.

Example parse_metar_no_wind : parse_metar "ENGM 121250Z /////KT 9999" = None.
Proof. reflexivity. Qed.

Example parse_metar_short_groups :
  parse_metar "VRB1KT" = None /\ parse_metar "1234KT" = None.
Proof. split; reflexivity. Qed.

Example int_forms :
  Py.int " 1_0 " = Ok 10 /\ Py.int "+07" = Ok 7 /\ Py.int "-0" = Ok 0 /\
  Py.int "1__2" = Raise ValueError /\ Py.int "- 1" = Raise ValueError.
Proof. repeat split. Qed.

(** * Strings *)

Lemma startswith_spec (s p : string) :
  startswith s p = true <-> exists r, s = p ++ r.
Proof.
  revert s. induction p as [|c p IH]; intros s; simpl.
  - split; [intros _; now exists s | reflexivity].
  - destruct s as [|d s]; simpl.
    + split; [discriminate | intros [r Hr]; discriminate].
    + rewrite andb_true_iff, IH, Ascii.eqb_eq.
      split; [intros [-> [r ->]]; now exists r | intros [r Hr]].
      inversion Hr; subst. split; auto. now exists r.
Qed.

Lemma append_assoc (a b c : string) : (a ++ b) ++ c = a ++ b ++ c.
Proof. induction a; simpl; congruence. Qed.

Lemma append_nil_r (a : string) : a ++ "" = a.
Proof. induction a; simpl; congruence. Qed.

(** * Characters *)

Lemma is_digit_range (c : ascii) :
  is_digit c = true <-> (48 <= nat_of_ascii c <= 57)%nat.
Proof.
  unfold is_digit. rewrite andb_true_iff, !Nat.leb_le. tauto.
Qed.

Lemma digit_not_space (c : ascii) : is_digit c = true -> is_space c = false.
Proof.
  rewrite is_digit_range. intros H. unfold is_space.
  apply orb_false_iff; split.
  - apply andb_false_iff. right. apply Nat.leb_gt. lia.
  - apply Nat.eqb_neq. lia.
Qed.

Lemma digit_neq (c d : ascii) :
  is_digit c = true -> is_digit d = false -> Ascii.eqb c d = false.
Proof.
  intros Hc Hd. destruct (Ascii.eqb_spec c d) as [->|]; congruence.
Qed.

(** * [int] on a run of digits *)

Lemma int_digits_total (s : string) :
  all_digits s = true ->
  forall acc prev, 0 <= acc -> prev = true \/ s <> "" ->
  exists z, int_digits acc prev s = Some z /\ 0 <= z.
Proof.
  induction s as [|c s IH]; cbn [int_digits all_digits];
    intros Hd acc prev Hacc Hne.
  - destruct Hne as [->|Hne]; [now exists acc | congruence].
  - apply andb_true_iff in Hd. destruct Hd as [Hc Hs]. rewrite Hc.
    apply IH; auto.
    apply is_digit_range in Hc. unfold digit_val.
    revert Hc. generalize (nat_of_ascii c). intros n Hn. lia.
Qed.

Lemma rstrip_space_digits (s : string) :
  all_digits s = true -> rstrip_space s = s.
Proof.
  induction s as [|c s IH]; simpl; intros Hd; [reflexivity|].
  apply andb_true_iff in Hd. destruct Hd as [Hc Hs].
  rewrite (IH Hs). destruct s; [|reflexivity].
  now rewrite (digit_not_space c Hc).
Qed.

Lemma int_all_digits (g : string) :
  all_digits g = true -> g <> "" -> exists z, Py.int g = Ok z /\ 0 <= z.
Proof.
  intros Hd Hne. destruct g as [|c g]; [congruence|].
  pose proof Hd as Hd'. simpl in Hd'. apply andb_true_iff in Hd'.
  destruct Hd' as [Hc Hg].
  unfold Py.int.
  assert (Hl : lstrip_space (String c g) = String c g).
  { simpl. now rewrite (digit_not_space c Hc). }
  rewrite Hl, (rstrip_space_digits _ Hd).
  rewrite (digit_neq c "-" Hc eq_refl), (digit_neq c "+" Hc eq_refl).
  destruct (int_digits_total (String c g) Hd 0 false) as [z [Hz Hz0]];
    [lia | right; congruence |].
  rewrite Hz. now exists z.
Qed.

(** * The pattern *)

Lemma digits_spec (n : nat) (s g rest : string) :
  digits n s = Some (g, rest) <->
  s = g ++ rest /\ String.length g = n /\ all_digits g = true.
Proof.
  revert s g rest. induction n as [|n IH]; intros s g rest; simpl.
  - split.
    + intros H; inversion H; subst. auto.
    + intros [H1 [H2 _]]. destruct g; [simpl in H1; congruence | discriminate].
  - destruct s as [|c s].
    + split; [discriminate|]. intros [H1 [H2 _]].
      destruct g; simpl in *; discriminate.
    + destruct (is_digit c) eqn:Hc.
      * destruct (digits n s) as [[g' r']|] eqn:Hd.
        -- apply IH in Hd. destruct Hd as [Hs [Hl Ha]]. split.
           ++ intros H; inversion H; subst. simpl. rewrite Hc, Ha. auto.
           ++ intros [H1 [H2 H3]]. destruct g as [|d g]; [discriminate|].
              simpl in H1, H2, H3. inversion H1; subst d.
              apply andb_true_iff in H3. destruct H3 as [_ H3].
              assert (Hd : digits n s = Some (g, rest)).
              { apply IH. repeat split; auto. }
              assert (Hd' : digits n s = Some (g', r')).
              { apply IH. repeat split; auto. }
              congruence.
        -- split; [discriminate|]. intros [H1 [H2 H3]].
           destruct g as [|d g]; [discriminate|].
           simpl in H1, H2, H3. inversion H1; subst d.
           apply andb_true_iff in H3. destruct H3 as [_ H3].
           assert (Hd' : digits n s = Some (g, rest)).
           { apply IH. repeat split; auto. }
           congruence.
      * split; [discriminate|]. intros [H1 [H2 H3]].
        destruct g as [|d g]; [discriminate|].
        simpl in H1, H3. inversion H1; subst d. rewrite Hc in H3. discriminate.
Qed.

Lemma digits_kt_spec (k : nat) (s g : string) :
  digits_kt k s = Some g <->
  String.length g = k /\ all_digits g = true /\
  exists post, s = g ++ "KT" ++ post.
Proof.
  unfold digits_kt. split.
  - destruct (digits k s) as [[g' rest]|] eqn:Hd; [|discriminate].
    apply digits_spec in Hd. destruct Hd as [Hs [Hl Ha]].
    destruct (startswith rest "KT") eqn:Hk; [|discriminate].
    intros H; inversion H; subst g'. apply startswith_spec in Hk.
    destruct Hk as [post ->]. repeat split; auto. now exists post.
  - intros [Hl [Ha [post Hs]]].
    assert (Hd : digits k s = Some (g, "KT" ++ post)).
    { apply digits_spec. auto. }
    rewrite Hd.
    assert (Hk : startswith ("KT" ++ post) "KT" = true).
    { apply startswith_spec. now exists post. }
    now rewrite Hk.
Qed.

Lemma match_speed_spec (s g : string) :
  match_speed s = Some g <->
  speed_token g /\ exists post, s = g ++ "KT" ++ post.
Proof.
  unfold match_speed, speed_token. split.
  - destruct (digits_kt 3 s) as [g'|] eqn:H3.
    + intros H; inversion H; subst g'. apply digits_kt_spec in H3. tauto.
    + intros H2. apply digits_kt_spec in H2. tauto.
  - intros [[Hl Ha] [post Hs]]. destruct Hl as [Hl|Hl].
    + assert (H3 : digits_kt 3 s = None).
      { destruct (digits_kt 3 s) as [g'|] eqn:H3; [|reflexivity].
        apply digits_kt_spec in H3. destruct H3 as [Hl' [Ha' [post' Hs']]].
        exfalso. subst s.
        destruct g as [|a [|b [|? ?]]]; try discriminate.
        destruct g' as [|a' [|b' [|c' [|? ?]]]]; discriminate. }
      rewrite H3. apply digits_kt_spec. eauto.
    + assert (H3 : digits_kt 3 s = Some g) by (apply digits_kt_spec; eauto).
      now rewrite H3.
Qed.

Lemma match_wind_spec (s g1 g3 : string) :
  match_wind s = Some (g1, g3) <-> wind_group s "" g1 g3.
Proof.
  unfold match_wind, wind_group.
  assert (Halt : forall g1 g3,
    match digits 3 s with
    | Some (g1, rest) =>
        match match_speed rest with
        | Some g3 => Some (g1, g3)
        | None => None
        end
    | None => None
    end = Some (g1, g3) <->
    (String.length g1 = 3%nat /\ all_digits g1 = true) /\ speed_token g3 /\
    exists post, s = g1 ++ g3 ++ "KT" ++ post).
  { clear. intros g1 g3. split.
    - destruct (digits 3 s) as [[g rest]|] eqn:Hd; [|discriminate].
      destruct (match_speed rest) as [g'|] eqn:Hm; [|discriminate].
      intros H; inversion H; subst g g'.
      apply digits_spec in Hd. apply match_speed_spec in Hm.
      destruct Hd as [Hs [Hl Ha]]. destruct Hm as [Ht [post Hp]].
      repeat split; auto; try apply Ht. exists post. congruence.
    - intros [[Hl Ha] [Ht [post Hs]]].
      assert (Hd : digits 3 s = Some (g1, g3 ++ "KT" ++ post))
        by (apply digits_spec; auto).
      assert (Hm : match_speed (g3 ++ "KT" ++ post) = Some g3)
        by (apply match_speed_spec; eauto).
      now rewrite Hd, Hm. }
  cbv zeta. split.
  - destruct (startswith s "VRB") eqn:Hv.
    + apply startswith_spec in Hv. destruct Hv as [r Hr].
      assert (Hdrop : drop 3 s = r) by (subst s; reflexivity).
      rewrite Hdrop. destruct (match_speed r) as [g|] eqn:Hm.
      * intros H; inversion H; subst g1 g. apply match_speed_spec in Hm.
        destruct Hm as [Ht [post Hp]].
        split; [now left | split; [exact Ht | exists post]].
        rewrite Hr, Hp. reflexivity.
      * intros H. apply Halt in H. unfold direction_token. tauto.
    + intros H. apply Halt in H. unfold direction_token. tauto.
  - intros [Hd [Ht [post Hs]]]. destruct Hd as [->|Hd].
    + assert (Hv : startswith s "VRB" = true).
      { apply startswith_spec. exists (g3 ++ "KT" ++ post). exact Hs. }
      assert (Hdrop : drop 3 s = g3 ++ "KT" ++ post) by (subst s; reflexivity).
      assert (Hm : match_speed (g3 ++ "KT" ++ post) = Some g3)
        by (apply match_speed_spec; eauto).
      now rewrite Hv, Hdrop, Hm.
    + assert (Hv : startswith s "VRB" = false).
      { destruct (startswith s "VRB") eqn:Hv; [|reflexivity].
        apply startswith_spec in Hv. destruct Hv as [r Hr]. subst s.
        destruct Hd as [Hl Ha]. destruct g1 as [|c g1]; [discriminate|].
        simpl in Hr. inversion Hr; subst c. discriminate. }
      rewrite Hv. apply Halt.
      split; [exact Hd | split; [exact Ht | exists post; exact Hs]].
Qed.

Lemma wind_group_cons (c : ascii) (s pre g1 g3 : string) :
  wind_group (String c s) (String c pre) g1 g3 <-> wind_group s pre g1 g3.
Proof.
  unfold wind_group.
  split; intros [Hd [Ht [post Hs]]];
    (split; [exact Hd | split; [exact Ht | exists post]]);
    simpl in *; congruence.
Qed.

Lemma wind_group_pre (c : ascii) (s pre g1 g3 : string) :
  wind_group (String c s) pre g1 g3 ->
  pre = "" \/ exists pre', pre = String c pre' /\ wind_group s pre' g1 g3.
Proof.
  intros H. destruct pre as [|d pre]; [now left|right].
  assert (d = c).
  { destruct H as [_ [_ [post Hs]]]. simpl in Hs. congruence. }
  subst d. exists pre. split; auto.
  exact (proj1 (wind_group_cons c s pre g1 g3) H).
Qed.

Lemma re_search_none (s : string) :
  re_search s = None <-> ~ has_wind_group s.
Proof.
  induction s as [|c s IH]; simpl.
  - destruct (match_wind "") as [[g1 g3]|] eqn:Hm.
    + split; [discriminate|]. intros H. exfalso. apply H.
      exists "", g1, g3. now apply match_wind_spec.
    + split; [|reflexivity]. intros _ [pre [g1 [g3 H]]].
      destruct pre.
      * apply match_wind_spec in H. congruence.
      * destruct H as [_ [_ [post Hs]]]. discriminate.
  - destruct (match_wind (String c s)) as [[g1 g3]|] eqn:Hm.
    + split; [discriminate|]. intros H. exfalso. apply H.
      exists "", g1, g3. now apply match_wind_spec.
    + rewrite IH. split; intros H [pre [g1 [g3 Hg]]]; apply H.
      * destruct (wind_group_pre _ _ _ _ _ Hg) as [->|[pre' [-> Hg']]].
        -- apply match_wind_spec in Hg. congruence.
        -- now exists pre', g1, g3.
      * exists (String c pre), g1, g3.
        exact (proj2 (wind_group_cons c s pre g1 g3) Hg).
Qed.

Lemma re_search_some (s g1 g3 : string) :
  re_search s = Some (g1, g3) ->
  exists pre, wind_group s pre g1 g3 /\
    forall pre' g1' g3', wind_group s pre' g1' g3' ->
      (String.length pre <= String.length pre')%nat.
Proof.
  induction s as [|c s IH]; simpl.
  - discriminate.
  - destruct (match_wind (String c s)) as [m|] eqn:Hm.
    + intros H; inversion H; subst m. exists "". split.
      * now apply match_wind_spec.
      * intros; simpl; lia.
    + intros H. destruct (IH H) as [pre [Hg Hmin]].
      exists (String c pre). split.
      * exact (proj2 (wind_group_cons c s pre g1 g3) Hg).
      * intros pre' g1' g3' Hg'.
        destruct (wind_group_pre _ _ _ _ _ Hg') as [->|[p [-> Hp]]].
        -- apply match_wind_spec in Hg'. congruence.
        -- simpl. apply Hmin in Hp. lia.
Qed.

Lemma speed_token_int (g : string) :
  speed_token g -> exists z, Py.int g = Ok z /\ 0 <= z.
Proof.
  intros [Hl Ha]. apply int_all_digits; auto.
  destruct g; [destruct Hl; discriminate | congruence].
Qed.

(** C7.  [parse_metar] returns [None] exactly when the text holds no wind
    group (variable marker or three-digit direction, two or three digit
    speed, knots marker, anywhere in the text).  Otherwise it returns the
    dictionary read from the leftmost group: the raw text is kept as it
    is, the speed is the integer of the speed digits, and the direction
    is ['VRB'] for the variable marker and the integer of the direction
    digits otherwise.  Being a total function, the parser has no effect
    and raises nothing. *)
Theorem parse_metar_wind_group (text : string) :
  (parse_metar text = None <-> ~ has_wind_group text) /\
  (forall wd, parse_metar text = Some wd ->
     raw_metar wd = text /\
     exists pre g1 g3,
       wind_group text pre g1 g3 /\
       (forall pre' g1' g3', wind_group text pre' g1' g3' ->
          (String.length pre <= String.length pre')%nat) /\
       Py.int g3 = Ok (speed wd) /\
       (g1 = "VRB" -> direction wd = VRB) /\
       (g1 <> "VRB" -> exists d, Py.int g1 = Ok d /\ direction wd = Deg d)).
Proof.
  unfold parse_metar.
  destruct (re_search text) as [[g1 g3]|] eqn:Hs.
  - destruct (re_search_some _ _ _ Hs) as [pre [Hg Hmin]].
    pose proof Hg as [Hd [Ht _]].
    destruct (speed_token_int g3 Ht) as [spd [Hspd _]].
    assert (Hdir : g1 = "VRB" \/ (g1 <> "VRB" /\ exists d, Py.int g1 = Ok d)).
    { destruct Hd as [->|[Hl Ha]]; [now left|right]. split.
      - intros ->. discriminate.
      - destruct (int_all_digits g1 Ha) as [d [Hd _]].
        + destruct g1; [discriminate | congruence].
        + now exists d. }
    assert (Htext : truthy text = true).
    { destruct text; [|reflexivity]. destruct Hg as [_ [_ [post Hp]]].
      destruct pre; [|discriminate]. destruct Hd as [->|[Hl _]].
      - discriminate.
      - destruct g1; discriminate. }
    assert (Hhas : has_wind_group text) by (now exists pre, g1, g3).
    rewrite Htext, Hspd. simpl negb. cbv iota.
    destruct Hdir as [->|[Hne [d Hd1]]].
    + simpl String.eqb. cbv iota. split.
      * split; [discriminate | tauto].
      * intros wd H; inversion H; subst wd; simpl. split; auto.
        exists pre, "VRB", g3. repeat split; auto; try apply Hg.
        intros Hc; congruence.
    + assert (He : String.eqb g1 "VRB" = false) by (now apply String.eqb_neq).
      rewrite He, Hd1. split.
      * split; [discriminate | tauto].
      * intros wd H; inversion H; subst wd; simpl. split; auto.
        exists pre, g1, g3. repeat split; auto; try apply Hg.
        -- intros Hc; congruence.
        -- intros _. now exists d.
  - apply re_search_none in Hs. split.
    + split; [auto|]. intros _. now destruct (negb (truthy text)).
    + intros wd H. destruct (negb (truthy text)); discriminate.
Qed.


(** * Real comparisons and the wind components *)

Lemma Rgtb_true (x y : R) : (x > y)%R -> Rgtb x y = true.
Proof. intros H. unfold Rgtb. destruct (Rgt_dec x y); [reflexivity | contradiction]. Qed.

Lemma Rgtb_false (x y : R) : (x <= y)%R -> Rgtb x y = false.
Proof. intros H. unfold Rgtb. destruct (Rgt_dec x y); [lra | reflexivity]. Qed.

Lemma Rltb_true (x y : R) : (x < y)%R -> Rltb x y = true.
Proof. intros H. unfold Rltb. destruct (Rlt_dec x y); [reflexivity | contradiction]. Qed.

Lemma Rltb_false (x y : R) : (y <= x)%R -> Rltb x y = false.
Proof. intros H. unfold Rltb. destruct (Rlt_dec x y); [lra | reflexivity]. Qed.

Lemma Rleb_true (x y : R) : (x <= y)%R -> Rleb x y = true.
Proof. intros H. unfold Rleb. destruct (Rle_dec x y); [reflexivity | contradiction]. Qed.

Lemma Rleb_false (x y : R) : (y < x)%R -> Rleb x y = false.
Proof. intros H. unfold Rleb. destruct (Rle_dec x y); [lra | reflexivity]. Qed.




(** Settles the comparisons of the goal that linear arithmetic over the
    hypotheses decides. *)
Ltac real_compare :=
  repeat match goal with
    | |- context [Rgtb ?x ?y] =>
        first [ rewrite (Rgtb_true x y) by lra
              | rewrite (Rgtb_false x y) by lra ]
    | |- context [Rltb ?x ?y] =>
        first [ rewrite (Rltb_true x y) by lra
              | rewrite (Rltb_false x y) by lra ]
    | |- context [Rleb ?x ?y] =>
        first [ rewrite (Rleb_true x y) by lra
              | rewrite (Rleb_false x y) by lra ]
    end.

Lemma components_eta (h d s : Z) :
  calculate_wind_components h d s = (headwind h d s, crosswind h d s).
Proof. reflexivity. Qed.

Lemma crosswind_nonneg (h d s : Z) : (0 <= crosswind h d s)%R.
Proof. unfold crosswind, calculate_wind_components. simpl. apply Rabs_pos. Qed.

Lemma radians_diff (d h : Z) :
  (radians d - radians h = IZR (d - h) * (PI / 180))%R.
Proof. unfold radians. rewrite minus_IZR. ring. Qed.




(** * Text files: [readlines] after [writelines] *)

Lemma writelines_cons (x : string) (xs : list string) :
  writelines (x :: xs) = x ++ writelines xs.
Proof.
  unfold writelines. destruct xs; simpl; [now rewrite append_nil_r | reflexivity].
Qed.

Lemma readlines_complete (body rest : string) :
  no_lf body = true ->
  readlines (body ++ nl ++ rest) = (body ++ nl) :: readlines rest.
Proof.
  induction body as [|c body IH]; intros Hb.
  - reflexivity.
  - simpl in Hb. apply andb_true_iff in Hb. destruct Hb as [Hc Hb].
    apply negb_true_iff in Hc.
    change (readlines (String c (body ++ nl ++ rest)) =
            String c (body ++ nl) :: readlines rest).
    cbn [readlines]. rewrite Hc, (IH Hb). reflexivity.
Qed.

Lemma readlines_writelines (lines : list string) :
  Forall complete_line lines -> readlines (writelines lines) = lines.
Proof.
  induction 1 as [|line lines [body [-> Hb]] _ IH]; [reflexivity|].
  rewrite writelines_cons, append_assoc, readlines_complete by exact Hb.
  now rewrite IH.
Qed.

Lemma readlines_nonempty (text : string) :
  text <> "" -> readlines text <> [].
Proof.
  destruct text as [|c text]; [congruence|]. intros _. cbn [readlines].
  destruct (Ascii.eqb c LF); [discriminate|].
  destruct (readlines text); discriminate.
Qed.

Lemma terminated_tail (c : ascii) (text : string) :
  terminated (String c text) = true -> text <> "" -> terminated text = true.
Proof. destruct text; [congruence | auto]. Qed.

Lemma readlines_terminated (text : string) :
  terminated text = true -> Forall complete_line (readlines text).
Proof.
  induction text as [|c text IH]; intros Ht; [constructor|].
  cbn [readlines]. destruct (Ascii.eqb c LF) eqn:Hc.
  - constructor.
    + exists "". split; reflexivity.
    + destruct text; [constructor|]. apply IH. exact Ht.
  - assert (Hne : text <> "").
    { intros ->. simpl in Ht. congruence. }
    pose proof (IH (terminated_tail _ _ Ht Hne)) as Hall.
    pose proof (readlines_nonempty _ Hne) as Hls.
    destruct (readlines text) as [|line lines]; [congruence|].
    inversion Hall as [|? ? [body [-> Hb]] Hrest]; subst.
    constructor; [|exact Hrest].
    exists (String c body). split; [reflexivity|].
    simpl. now rewrite Hc, Hb.
Qed.

Lemma no_lf_append (a b : string) :
  no_lf (a ++ b) = no_lf a && no_lf b.
Proof.
  induction a as [|c a IH]; [reflexivity|].
  simpl. now rewrite IH, andb_assoc.
Qed.

Lemma active_record_complete (airport runway flag : string) :
  no_lf airport = true -> no_lf runway = true -> no_lf flag = true ->
  complete_line (active_record airport runway flag).
Proof.
  intros Ha Hr Hf. unfold active_record.
  exists ("ACTIVE_RUNWAY:" ++ airport ++ ":" ++ runway ++ ":" ++ flag). split.
  - now rewrite !append_assoc.
  - rewrite !no_lf_append, Ha, Hr, Hf. reflexivity.
Qed.

(** * The store writer *)

Lemma dict_get_set_same {A : Type} (d : list (string * A)) (k : string) (v : A) :
  dict_get (dict_set d k v) k = Some v.
Proof.
  induction d as [|[k' v'] d IH]; simpl.
  - now rewrite String.eqb_refl.
  - destruct (String.eqb k k') eqn:E; simpl.
    + now rewrite String.eqb_refl.
    + now rewrite E.
Qed.

Lemma dict_get_set_other {A : Type} (d : list (string * A)) (k k' : string) (v : A) :
  k' <> k -> dict_get (dict_set d k v) k' = dict_get d k'.
Proof.
  intros Hne. induction d as [|[k0 v0] d IH]; simpl.
  - apply String.eqb_neq in Hne. now rewrite Hne.
  - destruct (String.eqb k k0) eqn:E; simpl.
    + apply String.eqb_eq in E. subst k0.
      apply String.eqb_neq in Hne. now rewrite Hne.
    + destruct (String.eqb k' k0); auto.
Qed.

Lemma update_rwy_file_run (filename airport text : string) (runway : selection)
    (w : World) :
  dict_get (files w) filename = Some text ->
  update_rwy_file filename airport runway w =
    (Ok tt,
     mkWorld (dict_set (files w) filename (updated_text text airport runway))
       (stdin w)).
Proof.
  intros Hf. unfold update_rwy_file, bind, read_lines, write_lines.
  rewrite Hf. reflexivity.
Qed.

(** On a text whose lines are all complete the records of the airport are
    replaced by the two new ones and every other line stays, in order. *)
Lemma updated_text_lines (text airport : string) (runway : selection) :
  terminated text = true ->
  no_lf airport = true ->
  no_lf (format_selection runway) = true ->
  readlines (updated_text text airport runway) =
    (filter (fun line => negb (keyed_to airport line)) (readlines text)
       ++ [active_record airport (format_selection runway) "1";
           active_record airport (format_selection runway) "0"])%list.
Proof.
  intros Ht Ha Hr. unfold updated_text.
  rewrite <- app_assoc. simpl app at 2.
  apply readlines_writelines. apply Forall_app. split.
  - apply Forall_forall. intros line Hin. apply filter_In in Hin.
    destruct Hin as [Hin _].
    pose proof (readlines_terminated text Ht) as Hall.
    rewrite Forall_forall in Hall. now apply Hall.
  - repeat constructor; now apply active_record_complete.
Qed.

Lemma keyed_active_record (airport runway flag : string) :
  keyed_to airport (active_record airport runway flag) = true.
Proof.
  unfold keyed_to, active_record, active_prefix. apply startswith_spec.
  exists (runway ++ ":" ++ flag ++ nl). now rewrite !append_assoc.
Qed.

Lemma filter_kept (p : string -> bool) (l : list string) :
  filter p (filter (fun x => negb (p x)) l) = [] /\
  filter (fun x => negb (p x)) (filter (fun x => negb (p x)) l)
    = filter (fun x => negb (p x)) l.
Proof.
  induction l as [|x l [IH1 IH2]]; [split; reflexivity|].
  cbn [filter]. destruct (p x) eqn:E; cbn [negb filter]; [now split|].
  rewrite E. cbn [negb]. now rewrite IH1, IH2.
Qed.

(** On a store whose lines are all complete [update_rwy_file] does what
    is asked of it: the file read back consists of the old lines not
    keyed to the airport, unchanged and in order, followed by the record
    with flag 1 and the record with flag 0; these two are all the lines
    keyed to the airport; the other files and the keyboard are left
    alone. *)
Lemma update_rwy_file_terminated_store (filename airport text : string)
    (runway : selection) (w : World) :
  dict_get (files w) filename = Some text ->
  terminated text = true ->
  no_lf airport = true ->
  no_lf (format_selection runway) = true ->
  exists w' text',
    update_rwy_file filename airport runway w = (Ok tt, w') /\
    dict_get (files w') filename = Some text' /\
    readlines text' =
      (filter (fun line => negb (keyed_to airport line)) (readlines text)
         ++ [active_record airport (format_selection runway) "1";
             active_record airport (format_selection runway) "0"])%list /\
    filter (keyed_to airport) (readlines text') =
      [active_record airport (format_selection runway) "1";
       active_record airport (format_selection runway) "0"] /\
    filter (fun line => negb (keyed_to airport line)) (readlines text') =
      filter (fun line => negb (keyed_to airport line)) (readlines text) /\
    (forall f, f <> filename -> dict_get (files w') f = dict_get (files w) f) /\
    stdin w' = stdin w.
Proof.
  intros Hf Ht Ha Hr.
  exists (mkWorld (dict_set (files w) filename (updated_text text airport runway))
            (stdin w)), (updated_text text airport runway).
  split; [now apply update_rwy_file_run|].
  split; [apply dict_get_set_same|].
  pose proof (updated_text_lines text airport runway Ht Ha Hr) as Hlines.
  destruct (filter_kept (keyed_to airport) (readlines text)) as [Hk1 Hk2].
  split; [exact Hlines|]. rewrite Hlines, !filter_app. cbn [filter].
  rewrite !keyed_active_record. cbn [negb]. rewrite Hk1, Hk2, app_nil_r.
  repeat split.
  intros f Hne. cbn [files]. now apply dict_get_set_other.
Qed.

(** C10, at a store whose last line is not terminated.  The first new
    record is written onto the end of that line: the line of ENGM is not
    preserved, and the file holds a single record keyed to ENBR. *)
Theorem update_rwy_file_unterminated_store :
  exists text',
    update_rwy_file "oslo.rwy" "ENBR" (SelOne "17")
      (mkWorld [("oslo.rwy", unterminated_store)] [])
    = (Ok tt, mkWorld [("oslo.rwy", text')] []) /\
    readlines unterminated_store =
      ["ACTIVE_RUNWAY:ENGM:01L:1" ++ nl; "ACTIVE_RUNWAY:ENGM:01L:0"] /\
    readlines text' =
      ["ACTIVE_RUNWAY:ENGM:01L:1" ++ nl;
       "ACTIVE_RUNWAY:ENGM:01L:0ACTIVE_RUNWAY:ENBR:17:1" ++ nl;
       "ACTIVE_RUNWAY:ENBR:17:0" ++ nl] /\
    filter (keyed_to "ENBR") (readlines text') =
      ["ACTIVE_RUNWAY:ENBR:17:0" ++ nl].
Proof.
  eexists. split; [vm_compute; reflexivity|].
  split; [|split]; vm_compute; reflexivity.
Qed.


(** * Variable wind: the lowest designator *)

Lemma number_of_ok (d : string) (n : Z) :
  designator_number d = Ok n -> number_of d = n.
Proof. unfold number_of. now intros ->. Qed.

Lemma numbered_number_of (d : string) :
  (exists n, designator_number d = Ok n) ->
  designator_number d = Ok (number_of d).
Proof. intros [n H]. now rewrite (number_of_ok d n H). Qed.

Lemma all_numbered_cons (r : Runway) (rd : list Runway) :
  all_numbered (r :: rd) ->
  designator_number (rwy1 r) = Ok (number_of (rwy1 r)) /\
  designator_number (rwy2 r) = Ok (number_of (rwy2 r)) /\
  all_numbered rd.
Proof.
  intros H. repeat split.
  - apply numbered_number_of, H. simpl. auto.
  - apply numbered_number_of, H. simpl. auto.
  - intros d Hd. apply H. simpl. auto.
Qed.

Lemma runway_numbers_ok (rd : list Runway) :
  all_numbered rd -> runway_numbers rd = Ok (map runway_low rd).
Proof.
  induction rd as [|r rd IH]; intros H; [reflexivity|].
  destruct (all_numbered_cons _ _ H) as [H1 [H2 Hrd]].
  cbn [runway_numbers]. rewrite H1, H2. cbn [rbind].
  rewrite (IH Hrd). reflexivity.
Qed.

Lemma fold_min_le (l : list Z) (x : Z) :
  fold_left Z.min l x <= x /\ forall y, In y l -> fold_left Z.min l x <= y.
Proof.
  revert x. induction l as [|a l IH]; intros x; simpl.
  - split; [lia | tauto].
  - destruct (IH (Z.min x a)) as [H1 H2]. split; [lia|].
    intros y [<-|Hy]; [lia | auto].
Qed.

Lemma fold_min_in (l : list Z) (x : Z) :
  fold_left Z.min l x = x \/ In (fold_left Z.min l x) l.
Proof.
  revert x. induction l as [|a l IH]; intros x; simpl; [now left|].
  destruct (IH (Z.min x a)) as [H|H]; [|now right; right].
  rewrite H. destruct (Z.min_spec x a) as [[_ E]|[_ E]]; rewrite E; auto.
Qed.

(** Where the loop leaves [selected]: on the last runway that carries
    the lowest number, its first designator if that one has the number;
    untouched when no runway carries it. *)
Lemma pick_lowest_last (lowest : Z) (rd : list Runway) :
  all_numbered rd ->
  forall acc, exists res,
    pick_lowest rd lowest acc = Ok res /\
    ((res = acc /\ forall d, In d (designators rd) -> number_of d <> lowest)
     \/ exists pre r post,
          rd = (pre ++ r :: post)%list /\
          (forall d, In d (designators post) -> number_of d <> lowest) /\
          ((number_of (rwy1 r) = lowest /\ res = Some (rwy1 r))
           \/ (number_of (rwy1 r) <> lowest /\ number_of (rwy2 r) = lowest
               /\ res = Some (rwy2 r)))).
Proof.
  induction rd as [|r rd IH]; intros H acc.
  - exists acc. split; [reflexivity|]. left. split; [reflexivity|]. intros d [].
  - destruct (all_numbered_cons _ _ H) as [H1 [H2 Hrd]].
    cbn [pick_lowest]. rewrite H1. cbn [rbind].
    destruct (Z.eqb_spec (number_of (rwy1 r)) lowest) as [E1|E1].
    + destruct (IH Hrd (Some (rwy1 r))) as [res [Hres Hcase]].
      exists res. split; [exact Hres|]. right.
      destruct Hcase as [[-> Hno]|[pre [r' [post [-> [Hno Hsel]]]]]].
      * exists [], r, rd. split; [reflexivity|]. split; [exact Hno|].
        left. auto.
      * exists (r :: pre), r', post. split; [reflexivity|]. auto.
    + rewrite H2. cbn [rbind].
      destruct (Z.eqb_spec (number_of (rwy2 r)) lowest) as [E2|E2].
      * destruct (IH Hrd (Some (rwy2 r))) as [res [Hres Hcase]].
        exists res. split; [exact Hres|]. right.
        destruct Hcase as [[-> Hno]|[pre [r' [post [-> [Hno Hsel]]]]]].
        -- exists [], r, rd. split; [reflexivity|]. split; [exact Hno|].
           right. auto.
        -- exists (r :: pre), r', post. split; [reflexivity|]. auto.
      * destruct (IH Hrd acc) as [res [Hres Hcase]].
        exists res. split; [exact Hres|].
        destruct Hcase as [[-> Hno]|[pre [r' [post [-> [Hno Hsel]]]]]].
        -- left. split; [reflexivity|]. intros d Hd. simpl in Hd.
           destruct Hd as [<-|[<-|Hd]]; auto.
        -- right. exists (r :: pre), r', post. split; [reflexivity|]. auto.
Qed.

Lemma in_designators (d : string) (rd : list Runway) :
  In d (designators rd) <-> exists r, In r rd /\ (d = rwy1 r \/ d = rwy2 r).
Proof.
  unfold designators. rewrite in_flat_map. split.
  - intros [r [Hr Hd]]. exists r. split; auto. simpl in Hd.
    destruct Hd as [<-|[<-|[]]]; auto.
  - intros [r [Hr Hd]]. exists r. split; auto. simpl.
    destruct Hd as [->| ->]; auto.
Qed.

(** The minimum the comprehension computes bounds every designator and
    is the number of one of them. *)
Lemma py_min_lowest (rd : list Runway) :
  rd <> [] ->
  exists lowest,
    py_min (map runway_low rd) = Ok lowest /\
    (forall d, In d (designators rd) -> lowest <= number_of d) /\
    (exists d, In d (designators rd) /\ number_of d = lowest).
Proof.
  destruct rd as [|r rd]; [congruence|]. intros _.
  cbn [map py_min]. eexists. split; [reflexivity|].
  set (l := map runway_low rd). set (x := runway_low r).
  destruct (fold_min_le l x) as [Hx Hl]. split.
  - intros d Hd. apply in_designators in Hd.
    destruct Hd as [r' [[<-|Hr'] Hd]].
    + assert (x <= number_of d) by (unfold x, runway_low; destruct Hd; subst; lia).
      lia.
    + assert (Hin : In (runway_low r') l) by (now apply in_map).
      apply Hl in Hin.
      assert (runway_low r' <= number_of d)
        by (unfold runway_low; destruct Hd; subst; lia).
      lia.
  - assert (Hr : exists r', In r' (r :: rd) /\ runway_low r' = fold_left Z.min l x).
    { destruct (fold_min_in l x) as [E|E].
      - exists r. split; [now left | now rewrite E].
      - apply in_map_iff in E. destruct E as [r' [E Hr']].
        exists r'. split; [now right | exact E]. }
    destruct Hr as [r' [Hr' E]]. unfold runway_low in E.
    destruct (Z.min_spec (number_of (rwy1 r')) (number_of (rwy2 r')))
      as [[_ Em]|[_ Em]]; rewrite Em in E.
    + exists (rwy1 r'). split; [|exact E]. apply in_designators. eauto.
    + exists (rwy2 r'). split; [|exact E]. apply in_designators. eauto.
Qed.

Lemma not_engm_special (airport : string) (wd : WindData) :
  airport <> "ENGM" -> engm_special airport wd = false.
Proof.
  intros H. unfold engm_special. apply String.eqb_neq in H. now rewrite H.
Qed.

(** C6, as amended.  For an airport other than ENGM without preferred
    runway, a non-empty catalog whose designators all have a number, and a
    variable wind, the selection is a designator of the catalog whose
    number is the lowest of all, and the rationale is shown.  Among
    designators with that number the runway listed last wins, and within
    that runway its first designator. *)
Theorem select_runway_variable_lowest (airport : string)
    (runway_data : list Runway) (spd : Z) (raw : string) (w : World) :
  airport <> "ENGM" ->
  dict_get PREFERRED_RUNWAYS airport = None ->
  runway_data <> [] ->
  all_numbered runway_data ->
  exists selected msg pre r post,
    select_runway airport runway_data (Some (mkWind VRB spd raw)) w
      = (Ok (SelOne selected, msg, true), w) /\
    In selected (designators runway_data) /\
    (forall d, In d (designators runway_data) ->
       number_of selected <= number_of d) /\
    runway_data = (pre ++ r :: post)%list /\
    (forall d, In d (designators post) -> number_of d <> number_of selected) /\
    (selected = rwy1 r
     \/ (selected = rwy2 r /\ number_of (rwy1 r) <> number_of selected)).
Proof.
  intros Hengm Hpref Hne Hnum.
  destruct (py_min_lowest runway_data Hne) as [lowest [Hmin [Hle [d0 [Hd0 Hd0n]]]]].
  destruct (pick_lowest_last lowest runway_data Hnum None)
    as [res [Hres Hcase]].
  destruct Hcase as [[_ Hno]|[pre [r [post [Hsplit [Hno Hsel]]]]]].
  { exfalso. exact (Hno d0 Hd0 Hd0n). }
  assert (Hrun : forall selected, res = Some selected ->
    select_runway airport runway_data (Some (mkWind VRB spd raw)) w
      = (Ok (SelOne selected,
             "Wind is " ++ raw ++ ", no preferred runway - using runway "
               ++ selected, true), w)).
  { intros selected ->. unfold select_runway.
    rewrite (not_engm_special _ _ Hengm). cbn [direction raw_metar].
    rewrite Hpref. unfold lift.
    rewrite (runway_numbers_ok _ Hnum). cbn [rbind].
    rewrite Hmin. cbn [rbind]. rewrite Hres. reflexivity. }
  assert (Hr : In r runway_data).
  { rewrite Hsplit. apply in_or_app. right. now left. }
  destruct Hsel as [[E ->]|[E1 [E ->]]].
  - exists (rwy1 r). eexists. exists pre, r, post.
    split; [now apply Hrun|].
    rewrite E. repeat split; auto.
    apply in_designators. eauto.
  - exists (rwy2 r). eexists. exists pre, r, post.
    split; [now apply Hrun|].
    rewrite E. repeat split; auto.
    apply in_designators. eauto.
Qed.

(** C6 at ESKS with two parallel runways. *)
Lemma select_runway_variable_lowest_witness :
  exists selected msg pre r post,
    select_runway "ESKS" parallel_catalog
      (Some (mkWind VRB 5 "ESKS 121250Z VRB05KT")) (mkWorld [] [])
      = (Ok (SelOne selected, msg, true), mkWorld [] []) /\
    In selected (designators parallel_catalog) /\
    (forall d, In d (designators parallel_catalog) ->
       number_of selected <= number_of d) /\
    parallel_catalog = (pre ++ r :: post)%list /\
    (forall d, In d (designators post) -> number_of d <> number_of selected) /\
    (selected = rwy1 r
     \/ (selected = rwy2 r /\ number_of (rwy1 r) <> number_of selected)).
Proof.
  apply select_runway_variable_lowest.
  - discriminate.
  - reflexivity.
  - discriminate.
  - intros d Hd. simpl in Hd.
    destruct Hd as [<-|[<-|[<-|[<-|[]]]]]; eexists; reflexivity.
Defined.

(** C6, as stated, fails on parallel runways: of the two designators
    numbered 1 the claim's rule takes the first in catalog order, 01L,
    and the code returns 01R of the runway listed last. *)
Lemma select_runway_variable_tie_last :
  select_runway "ESKS" parallel_catalog
    (Some (mkWind VRB 5 "ESKS 121250Z VRB05KT")) (mkWorld [] [])
  = (Ok (SelOne "01R",
         "Wind is ESKS 121250Z VRB05KT, no preferred runway - using runway 01R",
         true),
     mkWorld [] []) /\
  first_lowest (designators parallel_catalog) = Some "01L" /\
  number_of "01L" = number_of "01R".
Proof. split; [reflexivity | split; reflexivity]. Qed.


(** * The orchestrator *)

Lemma mem_In (x : string) (l : list string) : mem x l = true <-> In x l.
Proof.
  unfold mem. rewrite existsb_exists. split.
  - intros [y [Hy E]]. apply String.eqb_eq in E. now subst.
  - intros H. exists x. split; [exact H | apply String.eqb_refl].
Qed.


(** The policy only reads the keyboard: the files stay as they are. *)
Lemma select_runway_files (airport : string) (runway_data : list Runway)
    (wind_data : option WindData) (w : World) :
  files (snd (select_runway airport runway_data wind_data w)) = files w.
Proof.
  unfold select_runway.
  destruct wind_data as [wd|].
  - destruct (engm_special airport wd).
    + unfold bind, get_engm_config.
      destruct (engm_prompt (stdin w)) as [[[runways mode]|e] rest]; reflexivity.
    + destruct (direction wd).
      * destruct (dict_get PREFERRED_RUNWAYS airport); reflexivity.
      * cbv zeta.
        destruct (falsy _); reflexivity.
  - destruct (dict_get PREFERRED_RUNWAYS airport); [reflexivity|].
    unfold bind, lift. destruct (getitem runway_data 0); reflexivity.
Qed.

Section Commit.

Variables (airport : string) (selected : selection).


End Commit.

(** With at least one target file [main] is the loop over the catalog
    followed by the wait for the enter key. *)
Lemma main_loop (runways : list (string * list Runway))
    (all_metars : list (string * WindData)) (w : World) (f : string)
    (fs : list string) :
  filter (fun f => endswith f ".rwy") (map fst (files w)) = f :: fs ->
  main runways all_metars w =
    (_ <- for_each runways (fun entry =>
            process_airport (f :: fs) all_metars (fst entry) (snd entry)) ;;
     wait_enter) w.
Proof.
  intros H. unfold main, bind at 1, list_rwy_files. now rewrite H.
Qed.




(** * ENGM: the operator's choice *)

(** C1, evaluated.  ENGM with variable wind of 5 knots and no freezing
    fog is sent to the operator, and choice 3 makes the policy return the
    pair 19L, 19R with the mode SPO in its message.  [main] looks for the
    word Segregated in that message, does not find it, takes the mode to
    be SRO, and both stores receive ENGM_ARR:19L and ENGM_DEP:19L. *)
Theorem main_engm_choice_3 :
  engm_special "ENGM" (mkWind VRB 5 "ENGM 121250Z VRB05KT 9999") = true /\
  get_engm_config (mkWorld two_stores ["3"])
    = (Ok (["19L"; "19R"], "SPO"), mkWorld two_stores []) /\
  select_runway "ENGM" engm_catalog
    (Some (mkWind VRB 5 "ENGM 121250Z VRB05KT 9999")) (mkWorld two_stores ["3"])
    = (Ok (SelMany ["19L"; "19R"], "Using SPO mode with runways 19L, 19R", true),
       mkWorld two_stores []) /\
  main [("ENGM", engm_catalog)]
    [("ENGM", mkWind VRB 5 "ENGM 121250Z VRB05KT 9999")]
    (mkWorld two_stores ["3"])
    = (Ok tt,
       mkWorld
         [ ("oslo.rwy",
            "ENGM_ARR:19L" ++ nl ++ "ENGM_DEP:19L" ++ nl
              ++ "ACTIVE_RUNWAY:ENBR:35:1" ++ nl
              ++ "ACTIVE_RUNWAY:ENBR:35:0" ++ nl);
           ("notes.txt", "keep");
           ("backup.rwy",
            "ENGM_ARR:19L" ++ nl ++ "ENGM_DEP:19L" ++ nl
              ++ "ACTIVE_RUNWAY:ENBR:35:1" ++ nl
              ++ "ACTIVE_RUNWAY:ENBR:35:0" ++ nl) ]
         []).
Proof.
  split; [reflexivity|]. split; [reflexivity|]. split; [reflexivity|].
  vm_compute. reflexivity.
Qed.

(** The writer itself, handed the mode SPO, writes the records the
    operator asked for. *)
Lemma update_engm_runways_spo :
  update_engm_runways "oslo.rwy" ["19L"; "19R"] "SPO"
    (mkWorld [("oslo.rwy", engm_store)] [])
  = (Ok tt,
     mkWorld
       [ ("oslo.rwy",
          "ENGM_ARR:19R" ++ nl ++ "ENGM_DEP:19L" ++ nl
            ++ "ACTIVE_RUNWAY:ENBR:35:1" ++ nl
            ++ "ACTIVE_RUNWAY:ENBR:35:0" ++ nl) ]
       []).
Proof. vm_compute. reflexivity. Qed.


(** * Scans that keep the best candidate *)

Section Scan.

Context {A : Type}.
Variables (key : A -> string) (val : A -> R) (ok : A -> bool).
Variable beats : R -> pyfloat -> bool.
Variable better : R -> R -> Prop.

Hypothesis beats_fin : forall x y, beats x (Fin y) = true <-> better x y.
Hypothesis beats_trans :
  forall x y v, beats y v = true -> better x y -> beats x v = true.
Hypothesis beats_not :
  forall x y v, beats x v = true -> beats y v = false -> better x y.



End Scan.


(** ** The two orders on idealised floats *)







(** ** The two loops of the directional branch as scans *)

Section Directional.

Variables wind_dir wind_speed : Z.

Let hw (c : string * Z) : R := headwind (snd c) wind_dir wind_speed.
Let xw (c : string * Z) : R := crosswind (snd c) wind_dir wind_speed.






End Directional.


(** * Directional wind *)





(** Opposite headings: the headwind changes sign, the crosswind stays. *)
Lemma components_opposite (h d s : Z) :
  headwind (h + 180) d s = (- headwind h d s)%R /\
  crosswind (h + 180) d s = crosswind h d s.
Proof.
  unfold headwind, crosswind, calculate_wind_components. cbn [fst snd].
  assert (E : (radians d - radians (h + 180) = radians d - radians h - PI)%R).
  { unfold radians. rewrite plus_IZR. field. }
  rewrite E. set (x := (radians d - radians h)%R).
  rewrite (cos_minus x PI), (sin_minus x PI), cos_PI, sin_PI. split.
  - ring.
  - replace (IZR s * (sin x * -1 - cos x * 0))%R
      with (- (IZR s * sin x))%R by ring.
    apply Rabs_Ropp.
Qed.













(** * No validation of the observation *)

Lemma engm_prompt_answers (lines : list string) :
  answers lines -> exists config rest, engm_prompt lines = (Ok config, rest).
Proof.
  intros [choice [Hin Hvalid]].
  induction lines as [|line lines IH]; [destruct Hin|].
  cbn [engm_prompt].
  destruct (mem line ["1"; "2"; "3"; "4"; "5"; "6"]) eqn:Hline.
  - eauto.
  - destruct Hin as [->|Hin]; [congruence | auto].
Qed.

Lemma engm_prompt_no_answer (lines : list string) :
  ~ answers lines -> engm_prompt lines = (Raise EOFError, []).
Proof.
  induction lines as [|line lines IH]; intros Hno; [reflexivity|].
  cbn [engm_prompt].
  destruct (mem line ["1"; "2"; "3"; "4"; "5"; "6"]) eqn:Hline.
  - exfalso. apply Hno. exists line. split; [now left | exact Hline].
  - apply IH. intros [choice [Hin Hvalid]]. apply Hno.
    exists choice. split; [now right | exact Hvalid].
Qed.





(** * ENZV *)

Lemma bind_ok {A B : Type} (m : M A) (k : A -> M B) (w w' : World) (a : A) :
  m w = (Ok a, w') -> bind m k w = k a w'.
Proof. intros H. unfold bind. now rewrite H. Qed.

Section Enzv.

(** Wind from 100 degrees at 10 knots. *)
Let hw (h : Z) : R := headwind h 100 10.
Let xw (h : Z) : R := crosswind h 100 10.

Lemma enzv_headwind_18 : (0 < hw 177 < 10)%R.
Proof.
  unfold hw, headwind, calculate_wind_components. cbn [fst].
  rewrite radians_diff. replace (100 - 177) with (- (77)) by lia.
  rewrite opp_IZR, Ropp_mult_distr_l_reverse, cos_neg.
  pose proof PI_RGT_0 as Hpi.
  assert (H0 : (0 < cos (77 * (PI / 180)))%R) by (apply cos_gt_0; lra).
  assert (H1 : (cos (77 * (PI / 180)) < cos 0)%R)
    by (apply cos_decreasing_1; lra).
  rewrite cos_0 in H1. lra.
Qed.

Lemma enzv_headwind_36 : hw 357 = (- hw 177)%R.
Proof. apply (components_opposite 177 100 10). Qed.

Lemma enzv_crosswind_18 : (0 <= xw 177 <= 10)%R.
Proof.
  split; [apply crosswind_nonneg|].
  unfold xw, crosswind, calculate_wind_components. cbn [snd].
  rewrite Rabs_mult, (Rabs_right 10) by lra.
  pose proof (SIN_bound (radians 100 - radians 177)) as [Hl Hu].
  assert (Rabs (sin (radians 100 - radians 177)) <= 1)%R
    by (apply Rabs_le; lra).
  lra.
Qed.

Lemma enzv_crosswind_36 : xw 357 = xw 177.
Proof. apply (components_opposite 177 100 10). Qed.

Lemma enzv_components_10 : calculate_wind_components 100 100 10 = (10%R, 0%R).
Proof.
  unfold calculate_wind_components. cbv zeta.
  now rewrite Rminus_diag, cos_0, sin_0, Rmult_1_r, Rmult_0_r, Rabs_R0.
Qed.

Lemma enzv_components_28 : calculate_wind_components 280 100 10 = ((-10)%R, 0%R).
Proof.
  rewrite components_eta.
  destruct (components_opposite 100 100 10) as [Hh Hx].
  change (100 + 180) with 280 in Hh, Hx. rewrite Hh, Hx.
  unfold headwind, crosswind. rewrite enzv_components_10. cbn [fst snd].
  reflexivity.
Qed.

(** The function written for ENZV keeps runway 18: the crosswind on it
    is below 15 knots. *)
Lemma select_runway_enzv_keeps_18 :
  select_runway_enzv (Some enzv_wind) = Ok "18".
Proof.
  unfold select_runway_enzv, enzv_wind. cbn [direction speed].
  rewrite enzv_components_10, enzv_components_28.
  rewrite (components_eta 177), (components_eta 357).
  fold (hw 177) (hw 357) (xw 177) (xw 357).
  rewrite enzv_headwind_36, enzv_crosswind_36.
  pose proof enzv_headwind_18. pose proof enzv_crosswind_18.
  real_compare. cbn [String.eqb Ascii.eqb Bool.eqb]. real_compare.
  reflexivity.
Qed.

(** The policy every airport goes through takes runway 10, straight
    into the wind. *)
Lemma select_runway_enzv_general (w : World) :
  select_runway "ENZV" enzv_catalog (Some enzv_wind) w
  = (Ok (SelOne "10", "Selected runway 10 based on wind 100@10KT", false), w).
Proof.
  unfold select_runway, enzv_wind, enzv_catalog.
  cbn [engm_special String.eqb Ascii.eqb Bool.eqb andb direction speed
       fold_left].
  cbv zeta. unfold scan_runway. cbn [hdg1 hdg2 rwy1 rwy2 snd].
  rewrite enzv_components_10, enzv_components_28.
  rewrite (components_eta 177), (components_eta 357).
  fold (hw 177) (hw 357) (xw 177) (xw 357).
  rewrite enzv_headwind_36, enzv_crosswind_36.
  pose proof enzv_headwind_18. pose proof enzv_crosswind_18.
  unfold max_crosswind.
  pose proof (Rmin_l (xw 177) (xw 177)). pose proof (Rmin_l 0 0).
  real_compare. cbn [fgtb fltb andb snd]. real_compare.
  cbn [fgtb fltb andb snd]. real_compare.
  reflexivity.
Qed.

End Enzv.

(** C3, evaluated.  For ENZV with the wind from 100 degrees at 10 knots
    the function written for that airport keeps runway 18 (headwind
    better than on 36, crosswind below 15 knots).  [main] never calls it:
    ENZV goes through the general policy, which takes runway 10, and
    that is what the store receives. *)
Theorem main_enzv_uses_general_policy :
  select_runway_enzv (Some enzv_wind) = Ok "18" /\
  select_runway "ENZV" enzv_catalog (Some enzv_wind) enzv_world
    = (Ok (SelOne "10", "Selected runway 10 based on wind 100@10KT", false),
       enzv_world) /\
  main [("ENZV", enzv_catalog)] [("ENZV", enzv_wind)] enzv_world
    = (Ok tt,
       mkWorld [("stavanger.rwy", "ACTIVE_RUNWAY:ENZV:10:1" ++ nl
                                    ++ "ACTIVE_RUNWAY:ENZV:10:0" ++ nl)] []).
Proof.
  split; [exact select_runway_enzv_keeps_18|].
  split; [exact (select_runway_enzv_general enzv_world)|].
  unfold main.
  rewrite (bind_ok list_rwy_files _ enzv_world enzv_world ["stavanger.rwy"] eq_refl).
  cbn [for_each fst snd].
  assert (Hp : process_airport ["stavanger.rwy"] [("ENZV", enzv_wind)] "ENZV"
                 enzv_catalog enzv_world
               = (Ok tt,
                  mkWorld [("stavanger.rwy", "ACTIVE_RUNWAY:ENZV:10:1" ++ nl
                                    ++ "ACTIVE_RUNWAY:ENZV:10:0" ++ nl)] [])).
  { unfold process_airport.
    change (mem "ENZV" IGNORED_AIRPORTS) with false.
    change (dict_get [("ENZV", enzv_wind)] "ENZV") with (Some enzv_wind).
    cbv iota.
    rewrite (bind_ok _ _ _ _ _ (select_runway_enzv_general enzv_world)).
    reflexivity. }
  unfold bind at 1. rewrite (bind_ok _ _ _ _ _ Hp).
  reflexivity.
Qed.


(** * Further properties of the wind components *)







(** * The function written for ENZV *)


(** * Bounds on what the parser returns *)

Lemma digit_val_range (c : ascii) : is_digit c = true -> 0 <= digit_val c <= 9.
Proof.
  rewrite is_digit_range. unfold digit_val.
  generalize (nat_of_ascii c). intros n Hn. lia.
Qed.

Lemma int_digits_bounds (s : string) :
  all_digits s = true ->
  forall acc prev z, 0 <= acc ->
    int_digits acc prev s = Some z ->
    acc * 10 ^ Z.of_nat (String.length s) <= z
      < (acc + 1) * 10 ^ Z.of_nat (String.length s).
Proof.
  induction s as [|c s IH]; cbn [int_digits all_digits String.length];
    intros Hd acc prev z Hacc Hz.
  - destruct prev; [|discriminate]. inversion Hz; subst.
    change (10 ^ Z.of_nat 0) with 1. lia.
  - apply andb_true_iff in Hd. destruct Hd as [Hc Hs].
    rewrite Hc in Hz. pose proof (digit_val_range c Hc) as Hv.
    apply IH in Hz; [|exact Hs|lia].
    rewrite Nat2Z.inj_succ, Z.pow_succ_r by lia.
    assert (0 < 10 ^ Z.of_nat (String.length s)) by (apply Z.pow_pos_nonneg; lia).
    nia.
Qed.

Lemma int_all_digits_bounds (g : string) (z : Z) :
  all_digits g = true -> g <> "" -> Py.int g = Ok z ->
  0 <= z < 10 ^ Z.of_nat (String.length g).
Proof.
  intros Hd Hne Hz. destruct g as [|c g]; [congruence|].
  pose proof Hd as Hd'. cbn [all_digits] in Hd'. apply andb_true_iff in Hd'.
  destruct Hd' as [Hc Hg].
  unfold Py.int in Hz.
  assert (Hl : lstrip_space (String c g) = String c g).
  { cbn [lstrip_space]. now rewrite (digit_not_space c Hc). }
  rewrite Hl, (rstrip_space_digits _ Hd) in Hz.
  rewrite (digit_neq c "-" Hc eq_refl), (digit_neq c "+" Hc eq_refl) in Hz.
  destruct (int_digits 0 false (String c g)) as [z'|] eqn:Hi; [|discriminate].
  inversion Hz; subst z'.
  pose proof (int_digits_bounds _ Hd 0 false z (Z.le_refl 0) Hi). lia.
Qed.

(** X5.  Whatever the text, a parsed speed lies between 0 and 999 and a
    parsed direction between 0 and 999: the pattern admits at most three
    digits for each, and nothing checks the direction against 359. *)
Theorem parse_metar_bounds (text : string) (wd : WindData) :
  parse_metar text = Some wd ->
  0 <= speed wd <= 999 /\
  (direction wd = VRB \/ exists d, direction wd = Deg d /\ 0 <= d <= 999).
Proof.
  unfold parse_metar. destruct (negb (truthy text)); [discriminate|].
  destruct (re_search text) as [[g1 g3]|] eqn:Hs; [|discriminate].
  destruct (re_search_some _ _ _ Hs) as [pre [[Hd [[Hl3 Ha3] _]] _]].
  assert (Hspd : forall z, Py.int g3 = Ok z -> 0 <= z <= 999).
  { intros z Hz.
    assert (Hne : g3 <> "") by (destruct g3; [destruct Hl3; discriminate | congruence]).
    pose proof (int_all_digits_bounds g3 z Ha3 Hne Hz) as Hb.
    destruct Hl3 as [E|E]; rewrite E in Hb; simpl in Hb; lia. }
  destruct (Py.int g3) as [spd|] eqn:H3; [|discriminate].
  destruct (String.eqb g1 "VRB") eqn:Hv.
  - intros H; inversion H; subst wd. cbn [speed direction]. split; auto.
  - destruct (Py.int g1) as [d|] eqn:H1; [|discriminate].
    intros H; inversion H; subst wd. cbn [speed direction]. split; auto.
    right. exists d. split; [reflexivity|].
    destruct Hd as [->|[Hl1 Ha1]]; [discriminate|].
    assert (Hne : g1 <> "") by (destruct g1; [discriminate | congruence]).
    pose proof (int_all_digits_bounds g1 d Ha1 Hne H1) as Hb.
    rewrite Hl1 in Hb. simpl in Hb. lia.
Qed.

(** X5 on a report whose direction is out of range. *)
Lemma parse_metar_bounds_witness :
  0 <= speed (mkWind (Deg 999) 999 "ENBR 999999KT") <= 999 /\
  (direction (mkWind (Deg 999) 999 "ENBR 999999KT") = VRB \/
   exists d, direction (mkWind (Deg 999) 999 "ENBR 999999KT") = Deg d
             /\ 0 <= d <= 999).
Proof.
  apply (parse_metar_bounds "ENBR 999999KT"). reflexivity.
Defined.


(** * Further properties of the selection policy *)

Lemma Rgtb_false_le (x y : R) : Rgtb x y = false -> (x <= y)%R.
Proof.
  intros H. destruct (Rle_dec x y); [assumption|].
  rewrite Rgtb_true in H by lra. discriminate.
Qed.







(** X8.  The policy never touches a file, and it reads the keyboard only
    under the ENGM override: in every other case the world it returns is
    the world it was given, whether it returns or raises. *)
Theorem select_runway_effects (airport : string) (runway_data : list Runway)
    (wind_data : option WindData) (w : World) :
  files (snd (select_runway airport runway_data wind_data w)) = files w /\
  (match wind_data with
   | Some wd => engm_special airport wd
   | None => false
   end = false ->
   snd (select_runway airport runway_data wind_data w) = w).
Proof.
  split; [apply select_runway_files|].
  unfold select_runway. destruct wind_data as [wd|].
  - intros ->. destruct (direction wd).
    + destruct (dict_get PREFERRED_RUNWAYS airport); reflexivity.
    + cbv zeta. destruct (falsy _); reflexivity.
  - intros _. destruct (dict_get PREFERRED_RUNWAYS airport); [reflexivity|].
    unfold bind, lift. destruct (getitem runway_data 0); reflexivity.
Qed.


(** * The ENGM prompt and its writer *)

Lemma engm_prompt_first_valid (pre : list string) (choice : string)
    (rest : list string) :
  Forall (fun line => valid_choice line = false) pre ->
  valid_choice choice = true ->
  engm_prompt (pre ++ choice :: rest)%list = (Ok (engm_config choice), rest).
Proof.
  intros Hpre Hvalid.
  induction Hpre as [|line pre Hline _ IH].
  - cbn [app engm_prompt]. unfold valid_choice in Hvalid. now rewrite Hvalid.
  - cbn [app engm_prompt]. unfold valid_choice in Hline. now rewrite Hline.
Qed.

(** X9.  The prompt passes over every line that is not one of the six
    choices, returns the configuration of the first line that is, and
    leaves the lines after it unread; the files are not touched. *)
Theorem get_engm_config_first_valid (fs : list (string * string))
    (pre : list string) (choice : string) (rest : list string) :
  Forall (fun line => valid_choice line = false) pre ->
  valid_choice choice = true ->
  get_engm_config (mkWorld fs (pre ++ choice :: rest)%list)
  = (Ok (engm_config choice), mkWorld fs rest).
Proof.
  intros Hpre Hvalid. unfold get_engm_config. cbn [stdin files].
  now rewrite (engm_prompt_first_valid pre choice rest Hpre Hvalid).
Qed.

(** X9 with two mistyped lines before the choice. *)
Lemma get_engm_config_first_valid_witness :
  get_engm_config (mkWorld two_stores (["7"; "19 SPO"] ++ "4" :: ["1"])%list)
  = (Ok (engm_config "4"), mkWorld two_stores ["1"]).
Proof.
  apply get_engm_config_first_valid.
  - repeat constructor.
  - reflexivity.
Defined.

Lemma valid_choice_cases (choice : string) :
  valid_choice choice = true ->
  choice = "1" \/ choice = "2" \/ choice = "3" \/ choice = "4"
  \/ choice = "5" \/ choice = "6".
Proof.
  unfold valid_choice. intros H. apply mem_In in H. simpl in H.
  intuition auto.
Qed.

Lemma read_lines_found (f text : string) (w : World) :
  dict_get (files w) f = Some text -> read_lines f w = (Ok (readlines text), w).
Proof. intros H. unfold read_lines. now rewrite H. Qed.

(** X10.  When ENGM is sent to the operator, the loop body of [main]
    hands every target file to [update_engm_runways] with the runways of
    the chosen configuration and with the mode of that configuration,
    except that a configuration chosen as SPO is written as SRO: the
    mode is read back from the message, which never holds the word the
    test for SPO looks for. *)
Theorem process_airport_engm_mode (rwy_files : list string)
    (all_metars : list (string * WindData)) (runway_data : list Runway)
    (wd : WindData) (fs : list (string * string))
    (pre : list string) (choice : string) (rest : list string) :
  dict_get all_metars "ENGM" = Some wd ->
  engm_special "ENGM" wd = true ->
  Forall (fun line => valid_choice line = false) pre ->
  valid_choice choice = true ->
  process_airport rwy_files all_metars "ENGM" runway_data
    (mkWorld fs (pre ++ choice :: rest)%list)
  = for_each rwy_files
      (fun rwy_file =>
         update_engm_runways rwy_file (fst (engm_config choice))
           (if String.eqb (snd (engm_config choice)) "SPO" then "SRO"
            else snd (engm_config choice)))
      (mkWorld fs rest).
Proof.
  intros Hwd Hspecial Hpre Hvalid.
  unfold process_airport. cbn [mem IGNORED_AIRPORTS].
  change (mem "ENGM" IGNORED_AIRPORTS) with false. cbv iota.
  rewrite Hwd. unfold select_runway. rewrite Hspecial.
  unfold bind, get_engm_config. cbn [stdin files].
  rewrite (engm_prompt_first_valid pre choice rest Hpre Hvalid).
  destruct (valid_choice_cases _ Hvalid) as [-> | [-> | [-> | [-> | [-> | ->]]]]];
    reflexivity.
Qed.

(** X10 for the choice 3 (SPO on 19) in fog. *)
Lemma process_airport_engm_mode_witness :
  process_airport ["oslo.rwy"]
    [("ENGM", mkWind (Deg 190) 5 "ENGM 121250Z 19005KT 0200 FZFG")]
    "ENGM" engm_catalog
    (mkWorld [("oslo.rwy", engm_store)] (["x"] ++ "3" :: [])%list)
  = for_each ["oslo.rwy"]
      (fun rwy_file =>
         update_engm_runways rwy_file (fst (engm_config "3"))
           (if String.eqb (snd (engm_config "3")) "SPO" then "SRO"
            else snd (engm_config "3")))
      (mkWorld [("oslo.rwy", engm_store)] []).
Proof.
  apply (process_airport_engm_mode ["oslo.rwy"] _ engm_catalog
           (mkWind (Deg 190) 5 "ENGM 121250Z 19005KT 0200 FZFG")).
  - reflexivity.
  - reflexivity.
  - repeat constructor.
  - reflexivity.
Defined.

(** ** Which lines [update_engm_runways] rewrites *)

Lemma arr_not_dep (line : string) :
  startswith line "ENGM_ARR" = true -> startswith line "ENGM_DEP" = false.
Proof.
  intros H. apply startswith_spec in H. destruct H as [rest ->]. reflexivity.
Qed.

Lemma find_engm_lines_last (lines : list string) :
  forall i arr dep,
    find_engm_lines lines i arr dep
    = (last_index (fun l => startswith l "ENGM_ARR") lines i arr,
       last_index (fun l => startswith l "ENGM_DEP") lines i dep).
Proof.
  induction lines as [|line lines IH]; intros i arr dep.
  - reflexivity.
  - cbn [find_engm_lines last_index].
    destruct (startswith line "ENGM_ARR") eqn:Harr.
    + rewrite (arr_not_dep _ Harr). apply IH.
    + destruct (startswith line "ENGM_DEP"); apply IH.
Qed.

Lemma last_index_spec (marker : string) (lines : list string) :
  forall i found,
    (last_index (fun l => startswith l marker) lines i found = found /\
     none_with marker lines)
    \/ exists a,
         last_index (fun l => startswith l marker) lines i found
         = Some (i + a)%nat /\ last_with marker lines a.
Proof.
  induction lines as [|line lines IH]; intros i found.
  - left. split; [reflexivity | intros l []].
  - cbn [last_index].
    destruct (IH (S i) (if startswith line marker then Some i else found))
      as [[E Hnone]|[a [E [[la [Hnth Hla]] Hlater]]]].
    + destruct (startswith line marker) eqn:Hline.
      * right. exists 0%nat. rewrite Nat.add_0_r. split; [exact E|].
        split; [exists line; split; [reflexivity | exact Hline]|].
        intros j l Hj Hl. destruct j; [lia|]. cbn [nth_error] in Hl.
        apply Hnone. eapply nth_error_In; eauto.
      * left. split; [exact E|]. intros l [<-|Hl]; auto.
    + right. exists (S a). rewrite Nat.add_succ_r. split; [exact E|].
      split; [exists la; split; assumption|].
      intros j l Hj Hl. destruct j; [lia|]. cbn [nth_error] in Hl.
      apply (Hlater j l); [lia | exact Hl].
Qed.

Lemma setitem_length (lines : list string) :
  forall i v, List.length (setitem lines i v) = List.length lines.
Proof.
  induction lines as [|x lines IH]; intros [|i] v; cbn; auto.
Qed.

Lemma setitem_same (lines : list string) :
  forall i v, (i < List.length lines)%nat ->
              nth_error (setitem lines i v) i = Some v.
Proof.
  induction lines as [|x lines IH]; intros [|i] v H; cbn in *; try lia; auto.
  apply IH. lia.
Qed.

Lemma setitem_other (lines : list string) :
  forall i j v, j <> i -> nth_error (setitem lines i v) j = nth_error lines j.
Proof.
  induction lines as [|x lines IH]; intros [|i] [|j] v H; cbn; auto;
    try congruence.
Qed.

Lemma last_with_range (marker : string) (lines : list string) (a : nat) :
  last_with marker lines a -> (a < List.length lines)%nat.
Proof.
  intros [[la [Hnth _]] _]. apply nth_error_Some. congruence.
Qed.

(** What the two assignments of one branch do to the list of lines. *)
Lemma setitem_pair (lines : list string) (a b : nat) (va vb : string) :
  (a < List.length lines)%nat -> (b < List.length lines)%nat -> a <> b ->
  let new_lines := setitem (setitem lines a va) b vb in
  List.length new_lines = List.length lines /\
  nth_error new_lines a = Some va /\
  nth_error new_lines b = Some vb /\
  forall j, j <> a -> j <> b -> nth_error new_lines j = nth_error lines j.
Proof.
  intros Ha Hb Hab new_lines. unfold new_lines.
  repeat split.
  - now rewrite !setitem_length.
  - rewrite setitem_other by auto. now apply setitem_same.
  - apply setitem_same. now rewrite setitem_length.
  - intros j Hja Hjb. now rewrite !setitem_other by auto.
Qed.

(** X11.  On a file that exists, a run of [update_engm_runways] that
    returns either finds no line starting with ENGM_ARR or none starting
    with ENGM_DEP and leaves the world as it is, or rewrites the last line
    of each kind and nothing else: the file keeps its number of lines,
    every other line is the old one, the two new lines start with the
    same markers and end with a line feed, no other file and no keyboard
    input is touched. *)
Theorem update_engm_runways_rewrites_last_records (f text : string)
    (runways : list string) (mode : string) (w w' : World) :
  dict_get (files w) f = Some text ->
  update_engm_runways f runways mode w = (Ok tt, w') ->
  (w' = w /\
   (none_with "ENGM_ARR" (readlines text) \/
    none_with "ENGM_DEP" (readlines text)))
  \/ exists a b new_lines va vb,
       last_with "ENGM_ARR" (readlines text) a /\
       last_with "ENGM_DEP" (readlines text) b /\
       w' = mkWorld (dict_set (files w) f (writelines new_lines)) (stdin w) /\
       List.length new_lines = List.length (readlines text) /\
       nth_error new_lines a = Some ("ENGM_ARR:" ++ va ++ nl) /\
       nth_error new_lines b = Some ("ENGM_DEP:" ++ vb ++ nl) /\
       forall j, j <> a -> j <> b ->
                 nth_error new_lines j = nth_error (readlines text) j.
Proof.
  intros Hf Hrun. unfold update_engm_runways in Hrun. unfold bind at 1 in Hrun.
  rewrite (read_lines_found f text w Hf) in Hrun.
  rewrite find_engm_lines_last in Hrun.
  destruct (last_index_spec "ENGM_ARR" (readlines text) 0 None)
    as [[Ea Hnone]|[a [Ea Ha]]]; rewrite Ea in Hrun.
  { left. split; [|left; exact Hnone].
    unfold ret in Hrun. congruence. }
  destruct (last_index_spec "ENGM_DEP" (readlines text) 0 None)
    as [[Eb Hnone]|[b [Eb Hb]]]; rewrite Eb in Hrun.
  { left. split; [|right; exact Hnone].
    unfold ret in Hrun. congruence. }
  right. cbn [Nat.add] in Hrun.
  assert (Hab : a <> b).
  { intros <-. destruct Ha as [[la [Hna Hla]] _], Hb as [[lb [Hnb Hlb]] _].
    rewrite Hna in Hnb. injection Hnb as <-.
    rewrite (arr_not_dep _ Hla) in Hlb. discriminate. }
  pose proof (last_with_range _ _ _ Ha) as Ra.
  pose proof (last_with_range _ _ _ Hb) as Rb.
  assert (Hdone : forall va vb,
    write_lines f (setitem (setitem (readlines text) a ("ENGM_ARR:" ++ va ++ nl))
                     b ("ENGM_DEP:" ++ vb ++ nl)) w = (Ok tt, w') ->
    exists a0 b0 new_lines va0 vb0,
       last_with "ENGM_ARR" (readlines text) a0 /\
       last_with "ENGM_DEP" (readlines text) b0 /\
       w' = mkWorld (dict_set (files w) f (writelines new_lines)) (stdin w) /\
       List.length new_lines = List.length (readlines text) /\
       nth_error new_lines a0 = Some ("ENGM_ARR:" ++ va0 ++ nl) /\
       nth_error new_lines b0 = Some ("ENGM_DEP:" ++ vb0 ++ nl) /\
       forall j, j <> a0 -> j <> b0 ->
                 nth_error new_lines j = nth_error (readlines text) j).
  { intros va vb Hw. unfold write_lines in Hw. injection Hw as <-.
    destruct (setitem_pair (readlines text) a b ("ENGM_ARR:" ++ va ++ nl)
                ("ENGM_DEP:" ++ vb ++ nl) Ra Rb Hab) as [Hl [Hna [Hnb Hrest]]].
    exists a, b, (setitem (setitem (readlines text) a ("ENGM_ARR:" ++ va ++ nl))
                    b ("ENGM_DEP:" ++ vb ++ nl)), va, vb.
    repeat split; try assumption; try apply Ha; try apply Hb. }
  unfold bind, lift in Hrun.
  destruct (String.eqb mode "SPO").
  - destruct (getitem runways 0) as [r0|e]; cbn [rbind] in Hrun;
      [|discriminate].
    destruct (contains "19" r0).
    + apply (Hdone "19R" "19L"). exact Hrun.
    + apply (Hdone "01R" "01L"). exact Hrun.
  - destruct (String.eqb mode "MPO").
    + destruct (getitem runways 0) as [r0|e]; cbn [rbind] in Hrun;
        [|discriminate].
      destruct (getitem runways 1) as [r1|e]; cbn [rbind] in Hrun;
        [|discriminate].
      apply (Hdone (r0 ++ "," ++ r1) (r0 ++ "," ++ r1)).
      rewrite <- !append_assoc in Hrun |- *. exact Hrun.
    + destruct (getitem runways 0) as [r0|e]; cbn [rbind] in Hrun;
        [|discriminate].
      apply (Hdone r0 r0). exact Hrun.
Qed.

(** X11 on the ENGM store with the SPO mode. *)
Lemma update_engm_runways_rewrites_last_records_witness :
  exists w',
    update_engm_runways "oslo.rwy" ["19L"; "19R"] "SPO"
      (mkWorld [("oslo.rwy", engm_store)] []) = (Ok tt, w') /\
    ((w' = mkWorld [("oslo.rwy", engm_store)] [] /\
      (none_with "ENGM_ARR" (readlines engm_store) \/
       none_with "ENGM_DEP" (readlines engm_store)))
     \/ exists a b new_lines va vb,
          last_with "ENGM_ARR" (readlines engm_store) a /\
          last_with "ENGM_DEP" (readlines engm_store) b /\
          w' = mkWorld (dict_set [("oslo.rwy", engm_store)] "oslo.rwy"
                          (writelines new_lines)) [] /\
          List.length new_lines = List.length (readlines engm_store) /\
          nth_error new_lines a = Some ("ENGM_ARR:" ++ va ++ nl) /\
          nth_error new_lines b = Some ("ENGM_DEP:" ++ vb ++ nl) /\
          forall j, j <> a -> j <> b ->
                    nth_error new_lines j = nth_error (readlines engm_store) j).
Proof.
  eexists. split; [reflexivity|].
  apply (update_engm_runways_rewrites_last_records "oslo.rwy" engm_store
           ["19L"; "19R"] "SPO" (mkWorld [("oslo.rwy", engm_store)] []));
    reflexivity.
Defined.

(** X12.  When [update_engm_runways] raises, nothing has been written:
    the world is the one it started from.  It raises [FileNotFoundError]
    exactly when the file is missing; otherwise only [IndexError], and
    only when the list of runways has fewer than two entries. *)
Theorem update_engm_runways_failure_writes_nothing (f : string)
    (runways : list string) (mode : string) (w w' : World) (e : exn) :
  update_engm_runways f runways mode w = (Raise e, w') ->
  w' = w /\
  (e = FileNotFoundError <-> dict_get (files w) f = None) /\
  (e <> FileNotFoundError ->
   e = IndexError /\ (List.length runways < 2)%nat).
Proof.
  intros Hrun. unfold update_engm_runways in Hrun. unfold bind at 1 in Hrun.
  unfold read_lines in Hrun.
  destruct (dict_get (files w) f) as [text|] eqn:Hf.
  - assert (Hgoal : w' = w /\ e = IndexError /\ (List.length runways < 2)%nat).
    { destruct (find_engm_lines (readlines text) 0 None None) as [[a|] [b|]];
        try (unfold ret in Hrun; discriminate).
      unfold bind, lift, write_lines in Hrun.
      destruct (String.eqb mode "SPO").
      - destruct (getitem runways 0) as [r0|e0] eqn:E0; cbn [rbind] in Hrun.
        + destruct (contains "19" r0); discriminate.
        + injection Hrun as <- <-. unfold getitem in E0.
          destruct runways; cbn in E0; [|discriminate].
          injection E0 as <-. repeat split; cbn; lia.
      - destruct (String.eqb mode "MPO").
        + destruct (getitem runways 0) as [r0|e0] eqn:E0; cbn [rbind] in Hrun.
          * destruct (getitem runways 1) as [r1|e1] eqn:E1;
              cbn [rbind] in Hrun; [discriminate|].
            injection Hrun as <- <-. unfold getitem in E1.
            destruct runways as [|x [|y runways]]; cbn in E1;
              try discriminate; injection E1 as <-; repeat split; cbn; lia.
          * injection Hrun as <- <-. unfold getitem in E0.
            destruct runways; cbn in E0; [|discriminate].
            injection E0 as <-. repeat split; cbn; lia.
        + destruct (getitem runways 0) as [r0|e0] eqn:E0; cbn [rbind] in Hrun.
          * discriminate.
          * injection Hrun as <- <-. unfold getitem in E0.
            destruct runways; cbn in E0; [|discriminate].
            injection E0 as <-. repeat split; cbn; lia. }
    destruct Hgoal as [-> [-> Hlen]].
    split; [reflexivity|]. split; [split; discriminate|]. auto.
  - injection Hrun as <- <-.
    split; [reflexivity|]. split; [split; auto|]. congruence.
Qed.

(** X12 for a missing file. *)
Lemma update_engm_runways_failure_writes_nothing_witness :
  mkWorld [] [] = mkWorld [] [] /\
  (FileNotFoundError = FileNotFoundError <->
   dict_get (files (mkWorld [] [])) "oslo.rwy" = None) /\
  (FileNotFoundError <> FileNotFoundError ->
   FileNotFoundError = IndexError /\ (List.length ["19L"] < 2)%nat).
Proof.
  apply (update_engm_runways_failure_writes_nothing "oslo.rwy" ["19L"] "SRO"
           (mkWorld [] []) (mkWorld [] []) FileNotFoundError).
  reflexivity.
Defined.


(** * Further properties of the store writer *)

Lemma writelines_readlines (text : string) : writelines (readlines text) = text.
Proof.
  induction text as [|c text IH]; [reflexivity|].
  cbn [readlines]. destruct (Ascii.eqb_spec c LF) as [->|Hc].
  - rewrite writelines_cons, IH. reflexivity.
  - destruct (readlines text) as [|line lines].
    + cbn in IH. subst text. reflexivity.
    + rewrite writelines_cons in *. cbn [append]. now rewrite IH.
Qed.

Lemma writelines_app (xs ys : list string) :
  writelines (xs ++ ys)%list = writelines xs ++ writelines ys.
Proof.
  induction xs as [|x xs IH]; [reflexivity|].
  cbn [app]. now rewrite !writelines_cons, IH, append_assoc.
Qed.

Lemma filter_all {A : Type} (p : A -> bool) (l : list A) :
  (forall x, In x l -> p x = true) -> filter p l = l.
Proof.
  induction l as [|x l IH]; intros H; [reflexivity|].
  cbn [filter]. rewrite (H x (or_introl eq_refl)). f_equal.
  apply IH. intros y Hy. apply H. now right.
Qed.

(** X13.  For an airport that has no line in the file, and for every
    text of the file, terminated or not, [update_rwy_file] leaves the
    text it found, byte for byte, followed by the record with flag 1 and
    the record with flag 0; nothing else in the world changes. *)
Theorem update_rwy_file_fresh_airport (filename airport text : string)
    (runway : selection) (w : World) :
  dict_get (files w) filename = Some text ->
  (forall line, In line (readlines text) -> keyed_to airport line = false) ->
  update_rwy_file filename airport runway w =
    (Ok tt,
     mkWorld
       (dict_set (files w) filename
          (text ++ active_record airport (format_selection runway) "1"
                ++ active_record airport (format_selection runway) "0"))
       (stdin w)).
Proof.
  intros Hf Hfresh. rewrite (update_rwy_file_run _ _ _ _ _ Hf).
  unfold updated_text. rewrite filter_all.
  - rewrite !writelines_app, writelines_readlines, append_assoc.
    rewrite !writelines_cons. cbn [writelines String.concat].
    now rewrite !append_nil_r.
  - intros line Hin. now rewrite (Hfresh line Hin).
Qed.

(** X13 on the store without final line feed. *)
Lemma update_rwy_file_fresh_airport_witness :
  update_rwy_file "oslo.rwy" "ENBR" (SelOne "17")
    (mkWorld [("oslo.rwy", unterminated_store)] []) =
    (Ok tt,
     mkWorld
       (dict_set [("oslo.rwy", unterminated_store)] "oslo.rwy"
          (unterminated_store
             ++ active_record "ENBR" (format_selection (SelOne "17")) "1"
             ++ active_record "ENBR" (format_selection (SelOne "17")) "0"))
       []).
Proof.
  apply (update_rwy_file_fresh_airport "oslo.rwy" "ENBR" unterminated_store
           (SelOne "17") (mkWorld [("oslo.rwy", unterminated_store)] [])).
  - reflexivity.
  - intros line Hin. cbn in Hin.
    destruct Hin as [<-|[<-|[]]]; reflexivity.
Defined.

Lemma dict_set_set {A : Type} (d : list (string * A)) (k : string) (v v' : A) :
  dict_set (dict_set d k v) k v' = dict_set d k v'.
Proof.
  induction d as [|[k0 v0] d IH]; cbn [dict_set].
  - now rewrite String.eqb_refl.
  - destruct (String.eqb k k0) eqn:E; cbn [dict_set].
    + now rewrite String.eqb_refl.
    + now rewrite E, IH.
Qed.

Lemma updated_text_twice (text airport : string) (r1 r2 : selection) :
  terminated text = true ->
  no_lf airport = true ->
  no_lf (format_selection r1) = true ->
  updated_text (updated_text text airport r1) airport r2
  = updated_text text airport r2.
Proof.
  intros Ht Ha Hr. unfold updated_text at 1.
  rewrite (updated_text_lines text airport r1 Ht Ha Hr).
  rewrite filter_app. cbn [filter].
  rewrite !keyed_active_record. cbn [negb].
  destruct (filter_kept (keyed_to airport) (readlines text)) as [_ ->].
  now rewrite app_nil_r.
Qed.

(** X14.  The last write wins: on a file whose lines all end with a line
    feed, updating an airport twice in a row leaves exactly the world
    that the second update alone leaves. *)
Theorem update_rwy_file_last_write_wins (filename airport text : string)
    (r1 r2 : selection) (w : World) :
  dict_get (files w) filename = Some text ->
  terminated text = true ->
  no_lf airport = true ->
  no_lf (format_selection r1) = true ->
  (_ <- update_rwy_file filename airport r1 ;;
   update_rwy_file filename airport r2) w
  = update_rwy_file filename airport r2 w.
Proof.
  intros Hf Ht Ha Hr.
  rewrite (bind_ok _ _ _ _ _ (update_rwy_file_run _ _ _ r1 _ Hf)).
  rewrite (update_rwy_file_run filename airport
             (updated_text text airport r1) r2).
  - rewrite (update_rwy_file_run _ _ _ r2 _ Hf). cbn [files stdin].
    now rewrite dict_set_set, updated_text_twice.
  - cbn [files]. apply dict_get_set_same.
Qed.

(** X14 on the store of two airports. *)
Lemma update_rwy_file_last_write_wins_witness :
  (_ <- update_rwy_file "oslo.rwy" "ENBR" (SelOne "17") ;;
   update_rwy_file "oslo.rwy" "ENBR" (SelOne "35"))
    (mkWorld [("oslo.rwy", engm_store)] [])
  = update_rwy_file "oslo.rwy" "ENBR" (SelOne "35")
      (mkWorld [("oslo.rwy", engm_store)] []).
Proof.
  apply (update_rwy_file_last_write_wins "oslo.rwy" "ENBR" engm_store);
    reflexivity.
Defined.

(** ** Two airports in one store *)

Lemma startswith_append (p q s : string) :
  startswith s (p ++ q) = true ->
  exists rest, s = p ++ rest /\ startswith rest q = true.
Proof.
  intros H. apply startswith_spec in H. destruct H as [rest ->].
  exists (q ++ rest). split; [apply append_assoc|].
  apply startswith_spec. now exists rest.
Qed.

Lemma append_inj_l (p a b : string) : p ++ a = p ++ b -> a = b.
Proof.
  induction p as [|c p IH]; cbn [append]; [auto|].
  intros H. injection H as H. auto.
Qed.

(** Two keys without colon that are followed by a colon at the start of
    the same text are the same key. *)
Lemma key_unique (a b : string) :
  no_colon a = true -> no_colon b = true ->
  forall ra rb, a ++ ":" ++ ra = b ++ ":" ++ rb -> a = b.
Proof.
  revert b. induction a as [|c a IH]; intros [|d b] Ha Hb ra rb H;
    cbn [append no_colon] in *.
  - reflexivity.
  - injection H as H _. subst d. cbn in Hb. discriminate.
  - injection H as H _. subst c. cbn in Ha. discriminate.
  - injection H as -> H.
    apply andb_true_iff in Ha, Hb. destruct Ha as [_ Ha], Hb as [_ Hb].
    f_equal. exact (IH b Ha Hb ra rb H).
Qed.

Lemma keyed_to_unique (a b line : string) :
  no_colon a = true -> no_colon b = true ->
  keyed_to a line = true -> keyed_to b line = true -> a = b.
Proof.
  intros Ha Hb Hka Hkb. unfold keyed_to, active_prefix in *.
  apply startswith_spec in Hka, Hkb.
  destruct Hka as [ra Hra], Hkb as [rb Hrb].
  rewrite Hra in Hrb. rewrite !append_assoc in Hrb.
  apply append_inj_l in Hrb.
  exact (key_unique a b Ha Hb _ _ Hrb).
Qed.

(** X15.  Two airports do not disturb each other: for two different
    airport codes without colon, on a file whose lines all end with a
    line feed, the lines keyed to the one airport are the same, in the
    same order, before and after [update_rwy_file] has run for the
    other. *)
Theorem update_rwy_file_other_airport (text a b : string) (runway : selection) :
  a <> b ->
  no_colon a = true -> no_colon b = true ->
  terminated text = true ->
  no_lf a = true ->
  no_lf (format_selection runway) = true ->
  filter (keyed_to b) (readlines (updated_text text a runway))
  = filter (keyed_to b) (readlines text).
Proof.
  intros Hab Ha Hb Ht Hla Hr.
  rewrite (updated_text_lines text a runway Ht Hla Hr).
  rewrite filter_app.
  assert (Hrec : forall flag,
             keyed_to b (active_record a (format_selection runway) flag) = false).
  { intros flag.
    destruct (keyed_to b (active_record a (format_selection runway) flag)) eqn:E;
      [|reflexivity].
    exfalso. apply Hab.
    exact (keyed_to_unique a b _ Ha Hb (keyed_active_record a _ flag) E). }
  cbn [filter]. rewrite !Hrec, app_nil_r.
  induction (readlines text) as [|line lines IH]; [reflexivity|].
  cbn [filter].
  destruct (keyed_to a line) eqn:Eka; cbn [negb filter].
  - destruct (keyed_to b line) eqn:Ekb; [|exact IH].
    exfalso. apply Hab. exact (keyed_to_unique a b line Ha Hb Eka Ekb).
  - destruct (keyed_to b line); [f_equal|]; exact IH.
Qed.

(** X15 for ENBR and ENGM on the store of two airports. *)
Lemma update_rwy_file_other_airport_witness :
  filter (keyed_to "ENBR") (readlines (updated_text engm_store "ENGM" (SelOne "19L")))
  = filter (keyed_to "ENBR") (readlines engm_store).
Proof.
  apply update_rwy_file_other_airport; try reflexivity. discriminate.
Defined.


(** * The catalog reader *)

Lemma split_tokens (s : string) : Forall token (split s).
Proof.
  induction s as [|c s IH]; [constructor|].
  cbn [split]. destruct (is_blank c) eqn:Ec; [exact IH|].
  assert (Hc : token (String c "")).
  { split; [discriminate|]. cbn [no_blank]. now rewrite Ec. }
  remember (split s) as rest eqn:Erest.
  destruct s as [|d s']; [now constructor|].
  destruct (is_blank d) eqn:Ed; [now constructor|].
  destruct rest as [|tok toks]; [now constructor|].
  inversion IH as [|? ? [Htok Hnb] Htoks]; subst.
  constructor; [|exact Htoks].
  split; [discriminate|]. cbn [no_blank]. now rewrite Ec, Hnb.
Qed.

Lemma getitem_In {A : Type} (l : list A) (i : nat) (x : A) :
  getitem l i = Ok x -> In x l.
Proof.
  unfold getitem. destruct (nth_error l i) eqn:E; [|discriminate].
  intros H. injection H as <-. eapply nth_error_In; eauto.
Qed.

Lemma getitem_range {A : Type} (l : list A) (i : nat) :
  (i < List.length l)%nat -> exists x, getitem l i = Ok x /\ nth_error l i = Some x.
Proof.
  intros H. unfold getitem. destruct (nth_error l i) eqn:E; [eauto|].
  apply nth_error_None in E. lia.
Qed.

Lemma int_raises (s : string) (e : exn) : Py.int s = Raise e -> e = ValueError.
Proof.
  unfold Py.int.
  destruct (match rstrip_space (lstrip_space s) with
            | EmptyString => None
            | String c ds =>
                if Ascii.eqb c "-" then option_map Z.opp (int_digits 0 false ds)
                else if Ascii.eqb c "+" then int_digits 0 false ds
                else int_digits 0 false (rstrip_space (lstrip_space s))
            end); [discriminate|].
  intros H. now injection H as <-.
Qed.

(** What a line contributes, by cases on its fields. *)
Lemma runway_of_line_cases (line : string) :
  (runway_of_line line = Ok None)
  \/ (exists p0 p1 p2 p3 p8,
        let parts := split (strip line) in
        (9 <= List.length parts)%nat /\
        nth_error parts 0 = Some p0 /\ nth_error parts 1 = Some p1 /\
        nth_error parts 2 = Some p2 /\ nth_error parts 3 = Some p3 /\
        nth_error parts 8 = Some p8 /\
        runway_of_line line =
          (let* h1 := Py.int p2 in
           let* h2 := Py.int p3 in
           Ok (Some (mkRunway p0 p1 h1 h2 p8)))).
Proof.
  unfold runway_of_line.
  destruct (truthy (strip line) && negb (startswith line "[")); [|now left].
  destruct (9 <=? List.length (split (strip line)))%nat eqn:Hlen; [|now left].
  apply Nat.leb_le in Hlen. right.
  destruct (getitem_range (split (strip line)) 0) as [p0 [G0 N0]]; [lia|].
  destruct (getitem_range (split (strip line)) 1) as [p1 [G1 N1]]; [lia|].
  destruct (getitem_range (split (strip line)) 2) as [p2 [G2 N2]]; [lia|].
  destruct (getitem_range (split (strip line)) 3) as [p3 [G3 N3]]; [lia|].
  destruct (getitem_range (split (strip line)) 8) as [p8 [G8 N8]]; [lia|].
  exists p0, p1, p2, p3, p8. cbn zeta.
  rewrite G0, G1, G2, G3, G8. cbn [rbind].
  repeat (split; [assumption|]).
  destruct (Py.int p2); reflexivity.
Qed.

Lemma runway_of_line_some (line : string) (r : Runway) :
  runway_of_line line = Ok (Some r) -> read_runway (airport r) r.
Proof.
  destruct (runway_of_line_cases line) as [->|[p0 [p1 [p2 [p3 [p8 H]]]]]];
    [discriminate|].
  cbn zeta in H. destruct H as [_ [N0 [N1 [_ [_ [N8 ->]]]]]].
  destruct (Py.int p2) as [h1|]; cbn [rbind]; [|discriminate].
  destruct (Py.int p3) as [h2|]; cbn [rbind]; [|discriminate].
  intros H. injection H as <-. cbn [airport rwy1 rwy2].
  pose proof (split_tokens (strip line)) as Htok.
  rewrite Forall_forall in Htok.
  repeat split; try reflexivity;
    try (apply Htok; eapply nth_error_In; eassumption).
Qed.

Lemma runway_of_line_raise (line : string) (e : exn) :
  runway_of_line line = Raise e ->
  e = ValueError /\
  (9 <= List.length (split (strip line)))%nat /\
  exists field,
    (nth_error (split (strip line)) 2 = Some field \/
     nth_error (split (strip line)) 3 = Some field) /\
    Py.int field = Raise ValueError.
Proof.
  destruct (runway_of_line_cases line) as [->|[p0 [p1 [p2 [p3 [p8 H]]]]]];
    [discriminate|].
  cbn zeta in H. destruct H as [Hlen [_ [_ [N2 [N3 [_ ->]]]]]].
  destruct (Py.int p2) as [h1|e2] eqn:E2; cbn [rbind].
  - destruct (Py.int p3) as [h2|e3] eqn:E3; cbn [rbind]; [discriminate|].
    intros H. injection H as <-.
    pose proof (int_raises _ _ E3) as ->.
    split; [reflexivity|]. split; [exact Hlen|]. exists p3. auto.
  - intros H. injection H as <-.
    pose proof (int_raises _ _ E2) as ->.
    split; [reflexivity|]. split; [exact Hlen|]. exists p2. auto.
Qed.

(** ** The dictionary of lists *)

Lemma dict_append_keys (d : list (string * list Runway)) (a : string)
    (r : Runway) (k : string) :
  In k (map fst (dict_append d a r)) <-> k = a \/ In k (map fst d).
Proof.
  induction d as [|[k0 l0] d IH]; cbn [dict_append map fst In].
  - intuition auto.
  - destruct (String.eqb_spec a k0) as [->|Hne]; cbn [map fst In].
    + intuition auto.
    + rewrite IH. intuition auto.
Qed.

Lemma dict_append_nodup (d : list (string * list Runway)) (a : string)
    (r : Runway) :
  NoDup (map fst d) -> NoDup (map fst (dict_append d a r)).
Proof.
  induction d as [|[k0 l0] d IH]; cbn [dict_append map fst]; intros H.
  - constructor; [intros [] | constructor].
  - inversion H as [|? ? Hnot Hrest]; subst.
    destruct (String.eqb_spec a k0) as [->|Hne]; cbn [map fst].
    + exact H.
    + constructor; [|auto].
      rewrite dict_append_keys. intros [->|Hin]; [congruence | auto].
Qed.

Lemma dict_append_entries (P : string -> list Runway -> Prop)
    (d : list (string * list Runway)) (a : string) (r : Runway) :
  (forall l, P a l -> P a (l ++ [r])%list) ->
  P a [r] ->
  Forall (fun e => P (fst e) (snd e)) d ->
  Forall (fun e => P (fst e) (snd e)) (dict_append d a r).
Proof.
  intros Hstep Hnew. induction 1 as [|[k0 l0] d H0 Hd IH]; cbn [dict_append].
  - repeat constructor. exact Hnew.
  - destruct (String.eqb_spec a k0) as [->|Hne].
    + constructor; [|exact Hd]. cbn [fst snd] in *. auto.
    + constructor; auto.
Qed.

Lemma rows_of_append (d : list (string * list Runway)) (r : Runway) (k : string) :
  rows_of (dict_append d (airport r) r) k
  = (rows_of d k ++ located_at k [r])%list.
Proof.
  unfold rows_of, located_at. cbn [filter].
  induction d as [|[k0 l0] d IH]; cbn [dict_append dict_get].
  - rewrite (String.eqb_sym k). now destruct (String.eqb (airport r) k).
  - destruct (String.eqb_spec (airport r) k0) as [E|Hne]; cbn [dict_get].
    + rewrite E, (String.eqb_sym k0 k).
      destruct (String.eqb k k0); [reflexivity|].
      now rewrite app_nil_r.
    + destruct (String.eqb_spec k k0) as [->|Hk].
      * apply String.eqb_neq in Hne. rewrite Hne. now rewrite app_nil_r.
      * exact IH.
Qed.

(** The entries of a catalog under construction. *)
Lemma parse_runways_lines_spec (lines : list string) :
  forall d catalog,
    parse_runways_lines lines d = Ok catalog ->
    NoDup (map fst d) ->
    Forall (fun e => snd e <> [] /\ Forall (read_runway (fst e)) (snd e)) d ->
    NoDup (map fst catalog) /\
    Forall (fun e => snd e <> [] /\ Forall (read_runway (fst e)) (snd e))
      catalog /\
    forall k, rows_of catalog k
              = (rows_of d k ++ located_at k (catalog_rows lines))%list.
Proof.
  induction lines as [|line lines IH]; intros d catalog Hrun Hnd Hall.
  - cbn in Hrun. injection Hrun as <-. repeat split; auto.
    intros k. unfold located_at. cbn. now rewrite app_nil_r.
  - cbn [parse_runways_lines] in Hrun.
    unfold catalog_rows. cbn [flat_map]. fold (catalog_rows lines).
    destruct (runway_of_line line) as [[r|]|e] eqn:Hline; cbn [rbind] in Hrun;
      [| |discriminate].
    + pose proof (runway_of_line_some _ _ Hline) as Hr.
      destruct (IH _ _ Hrun) as [H1 [H2 H3]].
      * now apply dict_append_nodup.
      * apply (dict_append_entries
                 (fun k l => l <> [] /\ Forall (read_runway k) l)).
        -- intros l [_ Hl]. split; [destruct l; discriminate|].
           apply Forall_app. split; [exact Hl|].
           constructor; [exact Hr | constructor].
        -- split; [discriminate|]. constructor; [exact Hr | constructor].
        -- exact Hall.
      * repeat split; auto. intros k. rewrite H3, rows_of_append.
        unfold located_at. now rewrite filter_app, app_assoc.
    + destruct (IH _ _ Hrun Hnd Hall) as [H1 [H2 H3]]. repeat split; auto.
Qed.

Lemma parse_runways_run (filename : string) (w w' : World)
    (catalog : list (string * list Runway)) :
  parse_runways filename w = (Ok catalog, w') ->
  w' = w /\
  exists text, dict_get (files w) filename = Some text /\
               parse_runways_lines (readlines text) [] = Ok catalog.
Proof.
  unfold parse_runways, bind, read_lines, lift.
  destruct (dict_get (files w) filename) as [text|]; [|discriminate].
  intros H. injection H as H <-. eauto.
Qed.

(** X16.  A catalog that [parse_runways] returns is well formed: no
    airport is a key twice, no key has an empty list, every runway is
    filed under its own airport, and the airport and the two designators
    of every runway are non-empty and without white space.  Reading the
    catalog changes nothing in the world. *)
Theorem parse_runways_catalog_well_formed (filename : string) (w w' : World)
    (catalog : list (string * list Runway)) :
  parse_runways filename w = (Ok catalog, w') ->
  w' = w /\
  NoDup (map fst catalog) /\
  forall k l, In (k, l) catalog ->
    l <> [] /\ forall r, In r l -> read_runway k r.
Proof.
  intros Hrun. destruct (parse_runways_run _ _ _ _ Hrun) as [-> [text [_ Hl]]].
  destruct (parse_runways_lines_spec _ _ _ Hl) as [H1 [H2 _]];
    [constructor | constructor |].
  split; [reflexivity|]. split; [exact H1|].
  intros k l Hin. rewrite Forall_forall in H2.
  destruct (H2 (k, l) Hin) as [Hne Hall]. cbn [fst snd] in *.
  split; [exact Hne|]. rewrite Forall_forall in Hall. exact Hall.
Qed.

(** X16 on a catalog file of two airports. *)
Lemma parse_runways_catalog_well_formed_witness :
  exists catalog,
    parse_runways "runway.txt" (mkWorld [("runway.txt", catalog_file)] [])
    = (Ok catalog, mkWorld [("runway.txt", catalog_file)] []) /\
    (mkWorld [("runway.txt", catalog_file)] []
     = mkWorld [("runway.txt", catalog_file)] [] /\
     NoDup (map fst catalog) /\
     forall k l, In (k, l) catalog ->
       l <> [] /\ forall r, In r l -> read_runway k r).
Proof.
  eexists. split; [reflexivity|].
  apply (parse_runways_catalog_well_formed "runway.txt"
           (mkWorld [("runway.txt", catalog_file)] [])).
  reflexivity.
Defined.

Lemma dict_get_In {A : Type} (d : list (string * A)) (k : string) (v : A) :
  dict_get d k = Some v -> In (k, v) d.
Proof.
  induction d as [|[k0 v0] d IH]; cbn [dict_get]; [discriminate|].
  destruct (String.eqb_spec k k0) as [->|Hne].
  - intros H. injection H as ->. now left.
  - intros H. right. auto.
Qed.

(** X17.  The catalog groups the runways by airport and keeps the order
    of the file: the list filed under a key consists of the runways of
    the contributing lines located at that airport, in the order of the
    lines, and an airport without such a line is no key. *)
Theorem parse_runways_groups_in_order (filename text : string) (w w' : World)
    (catalog : list (string * list Runway)) :
  dict_get (files w) filename = Some text ->
  parse_runways filename w = (Ok catalog, w') ->
  forall k,
    dict_get catalog k =
    match located_at k (catalog_rows (readlines text)) with
    | [] => None
    | l => Some l
    end.
Proof.
  intros Hf Hrun k.
  destruct (parse_runways_run _ _ _ _ Hrun) as [_ [text' [Hf' Hl]]].
  rewrite Hf in Hf'. injection Hf' as <-.
  destruct (parse_runways_lines_spec _ _ _ Hl) as [_ [H2 H3]];
    [constructor | constructor |].
  specialize (H3 k). unfold rows_of in H3. cbn [dict_get app] in H3.
  destruct (dict_get catalog k) as [l|] eqn:Hk.
  - rewrite <- H3. apply dict_get_In in Hk.
    rewrite Forall_forall in H2. destruct (H2 _ Hk) as [Hne _].
    cbn [snd] in Hne. now destruct l.
  - now rewrite <- H3.
Qed.

(** X17 on a catalog file of two airports, at ENGM. *)
Lemma parse_runways_groups_in_order_witness :
  exists catalog,
    parse_runways "runway.txt" (mkWorld [("runway.txt", catalog_file)] [])
    = (Ok catalog, mkWorld [("runway.txt", catalog_file)] []) /\
    dict_get catalog "ENGM" =
    match located_at "ENGM" (catalog_rows (readlines catalog_file)) with
    | [] => None
    | l => Some l
    end.
Proof.
  eexists. split; [reflexivity|].
  apply (parse_runways_groups_in_order "runway.txt" catalog_file
           (mkWorld [("runway.txt", catalog_file)] [])
           (mkWorld [("runway.txt", catalog_file)] [])); reflexivity.
Defined.

Lemma parse_runways_lines_ok (lines : list string) :
  (forall line, In line lines -> exists row, runway_of_line line = Ok row) ->
  forall d, exists catalog, parse_runways_lines lines d = Ok catalog.
Proof.
  induction lines as [|line lines IH]; intros Hall d; cbn [parse_runways_lines].
  - eauto.
  - destruct (Hall line (or_introl eq_refl)) as [row ->]. cbn [rbind].
    destruct row; apply IH; intros l Hl; apply Hall; now right.
Qed.

Lemma parse_runways_lines_raise (lines : list string) :
  forall d e,
    parse_runways_lines lines d = Raise e ->
    exists line, In line lines /\ runway_of_line line = Raise e.
Proof.
  induction lines as [|line lines IH]; intros d e; cbn [parse_runways_lines].
  - discriminate.
  - destruct (runway_of_line line) as [row|e'] eqn:Hline; cbn [rbind].
    + intros H. destruct row; apply IH in H; destruct H as [l [Hl Hr]];
        exists l; (split; [now right | exact Hr]).
    + intros H. injection H as <-. exists line. split; [now left | exact Hline].
Qed.

(** X18.  How [parse_runways] fails.  It never changes the world.  On a
    missing file it raises [FileNotFoundError].  On a file that exists it
    raises nothing but [ValueError], and it raises it exactly when some
    line with at least nine fields has a third or a fourth field that
    [int] refuses; lines with fewer fields, blank lines and lines that
    start with a bracket never make it fail. *)
Theorem parse_runways_failure (filename : string) (w : World) :
  snd (parse_runways filename w) = w /\
  match dict_get (files w) filename with
  | None => fst (parse_runways filename w) = Raise FileNotFoundError
  | Some text =>
      (forall e, fst (parse_runways filename w) = Raise e -> e = ValueError) /\
      (fst (parse_runways filename w) = Raise ValueError <->
       exists line field,
         In line (readlines text) /\
         truthy (strip line) = true /\ startswith line "[" = false /\
         (9 <= List.length (split (strip line)))%nat /\
         (nth_error (split (strip line)) 2 = Some field \/
          nth_error (split (strip line)) 3 = Some field) /\
         Py.int field = Raise ValueError)
  end.
Proof.
  unfold parse_runways, bind, read_lines, lift.
  destruct (dict_get (files w) filename) as [text|]; cbn [fst snd];
    [|split; reflexivity].
  split; [reflexivity|]. split.
  - intros e He. apply parse_runways_lines_raise in He.
    destruct He as [line [_ Hr]]. now apply runway_of_line_raise in Hr.
  - split.
    + intros He. apply parse_runways_lines_raise in He.
      destruct He as [line [Hin Hr]].
      destruct (runway_of_line_raise _ _ Hr) as [_ [Hlen [field [Hn Hi]]]].
      exists line, field. repeat split; auto.
      * unfold runway_of_line in Hr.
        destruct (truthy (strip line)); [reflexivity|discriminate].
      * unfold runway_of_line in Hr.
        destruct (truthy (strip line)); [|discriminate].
        destruct (startswith line "["); [discriminate|reflexivity].
    + intros [line [field [Hin [Ht [Hs [Hlen [Hn Hi]]]]]]].
      destruct (parse_runways_lines (readlines text) []) as [catalog|e] eqn:Hrun.
      * exfalso.
        assert (Hline : exists e, runway_of_line line = Raise e).
        { destruct (runway_of_line_cases line)
            as [Hnone|[p0 [p1 [p2 [p3 [p8 H]]]]]].
          - unfold runway_of_line in Hnone. rewrite Ht, Hs in Hnone.
            cbn [andb negb] in Hnone.
            apply Nat.leb_le in Hlen. rewrite Hlen in Hnone.
            destruct (getitem_range (split (strip line)) 0) as [q0 [G0 _]];
              [apply Nat.leb_le in Hlen; lia|].
            destruct (getitem_range (split (strip line)) 1) as [q1 [G1 _]];
              [apply Nat.leb_le in Hlen; lia|].
            destruct (getitem_range (split (strip line)) 2) as [q2 [G2 _]];
              [apply Nat.leb_le in Hlen; lia|].
            destruct (getitem_range (split (strip line)) 3) as [q3 [G3 _]];
              [apply Nat.leb_le in Hlen; lia|].
            destruct (getitem_range (split (strip line)) 8) as [q8 [G8 _]];
              [apply Nat.leb_le in Hlen; lia|].
            rewrite G0, G1, G2, G3, G8 in Hnone. cbn [rbind] in Hnone.
            destruct (Py.int q2); cbn [rbind] in Hnone; [|discriminate].
            destruct (Py.int q3); cbn [rbind] in Hnone; discriminate.
          - cbn zeta in H. destruct H as [_ [_ [_ [N2 [N3 [_ ->]]]]]].
            destruct Hn as [Hn|Hn].
            + rewrite N2 in Hn. injection Hn as <-. rewrite Hi. cbn. eauto.
            + rewrite N3 in Hn. injection Hn as <-. rewrite Hi.
              destruct (Py.int p2); cbn; eauto. }
        destruct Hline as [e Hline].
        clear - Hrun Hin Hline.
        revert Hrun. generalize (@nil (string * list Runway)).
        induction (readlines text) as [|l ls IH]; [destruct Hin|].
        intros d. cbn [parse_runways_lines].
        destruct Hin as [->|Hin].
        -- rewrite Hline. discriminate.
        -- destruct (runway_of_line l) as [[r|]|]; cbn [rbind];
             [apply IH | apply IH | discriminate]; exact Hin.
      * f_equal. apply parse_runways_lines_raise in Hrun.
        destruct Hrun as [l [_ Hr]]. now apply runway_of_line_raise in Hr.
Qed.


(** * The feed reader *)

Lemma dict_set_In {A : Type} (d : list (string * A)) (k k' : string) (v v' : A) :
  In (k, v) (dict_set d k' v') -> (k = k' /\ v = v') \/ In (k, v) d.
Proof.
  induction d as [|[k0 v0] d IH]; cbn [dict_set].
  - intros [H|[]]. injection H as <- <-. now left.
  - destruct (String.eqb k' k0).
    + intros [H|H]; [injection H as <- <-; now left | right; now right].
    + intros [H|H]; [right; now left|].
      destruct (IH H) as [?|?]; [now left | right; now right].
Qed.

Lemma dict_set_keys {A : Type} (d : list (string * A)) (k' : string) (v' : A) (k : string) :
  In k (map fst (dict_set d k' v')) <-> k = k' \/ In k (map fst d).
Proof.
  induction d as [|[k0 v0] d IH]; cbn [dict_set map fst In].
  - intuition auto.
  - destruct (String.eqb_spec k' k0) as [->|Hne]; cbn [map fst In].
    + intuition auto.
    + rewrite IH. intuition auto.
Qed.

Lemma dict_set_nodup {A : Type} (d : list (string * A)) (k : string) (v : A) :
  NoDup (map fst d) -> NoDup (map fst (dict_set d k v)).
Proof.
  induction d as [|[k0 v0] d IH]; cbn [dict_set map fst]; intros H.
  - constructor; [intros [] | constructor].
  - inversion H as [|? ? Hnot Hrest]; subst.
    destruct (String.eqb_spec k k0) as [->|Hne]; cbn [map fst].
    + exact H.
    + constructor; [|auto].
      rewrite dict_set_keys. intros [->|Hin]; [congruence | auto].
Qed.

(** Where an entry of the dictionary filled by the loop comes from. *)
Lemma collect_metars_sound (reports : list string) :
  forall metars,
    NoDup (map fst metars) ->
    NoDup (map fst (fst (collect_metars reports metars))) /\
    forall k wd,
      In (k, wd) (fst (collect_metars reports metars)) ->
      In (k, wd) metars \/
      exists report,
        In report reports /\ nth_error (split report) 0 = Some k /\
        parse_metar report = Some wd.
Proof.
  induction reports as [|report reports IH]; intros metars Hnd;
    cbn [collect_metars].
  - split; [exact Hnd | auto].
  - unfold getitem.
    destruct (nth_error (split report) 0) as [icao|] eqn:Hkey;
      [|split; [exact Hnd | auto]].
    destruct (parse_metar report) as [wind_data|] eqn:Hparse.
    + destruct (IH (dict_set metars icao wind_data)) as [H1 H2];
        [now apply dict_set_nodup|].
      split; [exact H1|]. intros k wd Hin.
      destruct (H2 k wd Hin) as [Hset|[r [Hr [Hk Hp]]]].
      * destruct (dict_set_In _ _ _ _ _ Hset) as [[-> ->]|Hold]; [|now left].
        right. exists report. repeat split; auto. now left.
      * right. exists r. repeat split; auto. now right.
    + destruct (IH metars Hnd) as [H1 H2]. split; [exact H1|].
      intros k wd Hin.
      destruct (H2 k wd Hin) as [Hold|[r [Hr [Hk Hp]]]]; [now left|].
      right. exists r. repeat split; auto. now right.
Qed.

(** X19.  Every entry of the dictionary [get_all_metars] returns comes
    from a report that [parse_metar] accepts: a line of the Norwegian
    response, answered with status 200, filed under its first field; or
    the stripped text of the ESKS response, answered with status 200,
    filed under ESKS.  A report that has no wind group is never filed,
    and no key occurs twice. *)
Theorem get_all_metars_sound (norway esks : fetch) :
  NoDup (map fst (get_all_metars norway esks)) /\
  forall k wd,
    In (k, wd) (get_all_metars norway esks) ->
    (exists text report,
       norway = Response 200 text /\
       In report (split_lf (strip text)) /\
       nth_error (split report) 0 = Some k /\
       parse_metar report = Some wd)
    \/ (k = "ESKS" /\
        exists text,
          esks = Response 200 text /\ parse_metar (strip text) = Some wd).
Proof.
  unfold get_all_metars.
  destruct norway as [|code text]; [split; [constructor | intros k wd []]|].
  assert (Hfirst :
    let first := if code =? 200 then collect_metars (split_lf (strip text)) []
                 else ([], true) in
    NoDup (map fst (fst first)) /\
    forall k wd, In (k, wd) (fst first) ->
      exists text0 report,
        Response code text = Response 200 text0 /\
        In report (split_lf (strip text0)) /\
        nth_error (split report) 0 = Some k /\
        parse_metar report = Some wd).
  { cbn zeta. destruct (Z.eqb_spec code 200) as [->|Hne].
    - destruct (collect_metars_sound (split_lf (strip text)) []) as [H1 H2];
        [constructor|].
      split; [exact H1|]. intros k wd Hin.
      destruct (H2 k wd Hin) as [[]|[r [Hr [Hk Hp]]]].
      exists text, r. auto.
    - split; [constructor | intros k wd []]. }
  cbn zeta in Hfirst.
  destruct (if code =? 200 then collect_metars (split_lf (strip text)) []
            else ([], true)) as [metars completed].
  cbn [fst] in Hfirst. destruct Hfirst as [Hnd Hsrc].
  assert (Hkeep : NoDup (map fst metars) /\
                  forall k wd, In (k, wd) metars ->
                    (exists text0 report,
                       Response code text = Response 200 text0 /\
                       In report (split_lf (strip text0)) /\
                       nth_error (split report) 0 = Some k /\
                       parse_metar report = Some wd)
                    \/ (k = "ESKS" /\
                        exists text0,
                          esks = Response 200 text0 /\
                          parse_metar (strip text0) = Some wd)).
  { split; [exact Hnd|]. intros k wd Hin. left. auto. }
  destruct completed; [|exact Hkeep].
  destruct esks as [|code' text']; [exact Hkeep|].
  destruct (Z.eqb_spec code' 200) as [->|Hne]; [|exact Hkeep].
  destruct (parse_metar (strip text')) as [wind_data|] eqn:Hparse;
    [|exact Hkeep].
  split; [now apply dict_set_nodup|].
  intros k wd Hin.
  destruct (dict_set_In _ _ _ _ _ Hin) as [[-> ->]|Hold].
  - right. split; [reflexivity|]. exists text'. auto.
  - left. auto.
Qed.

(** ** The order of the reports *)

Lemma collect_metars_prefix (pre : list string) :
  (forall r, In r pre -> split r <> []) ->
  forall rest metars,
    exists metars',
      collect_metars (pre ++ rest)%list metars = collect_metars rest metars'.
Proof.
  induction pre as [|r pre IH]; intros Hall rest metars; cbn [app].
  - now exists metars.
  - cbn [collect_metars]. unfold getitem.
    destruct (split r) as [|icao toks] eqn:Hr;
      [exfalso; apply (Hall r); [now left | exact Hr]|].
    cbn [nth_error].
    destruct (parse_metar r); apply IH; intros r' Hr'; apply Hall; now right.
Qed.

Lemma collect_metars_keeps (k : string) (post : list string) :
  (forall r, In r post -> split r <> []) ->
  (forall r, In r post -> nth_error (split r) 0 = Some k ->
             parse_metar r = None) ->
  forall metars,
    snd (collect_metars post metars) = true /\
    dict_get (fst (collect_metars post metars)) k = dict_get metars k.
Proof.
  induction post as [|r post IH]; intros Hall Hnone metars;
    cbn [collect_metars].
  - split; reflexivity.
  - unfold getitem.
    destruct (split r) as [|icao toks] eqn:Hr;
      [exfalso; apply (Hall r); [now left | exact Hr]|].
    cbn [nth_error].
    assert (Hall' : forall r', In r' post -> split r' <> [])
      by (intros r' Hr'; apply Hall; now right).
    assert (Hnone' : forall r', In r' post ->
                       nth_error (split r') 0 = Some k -> parse_metar r' = None)
      by (intros r' Hr'; apply Hnone; now right).
    destruct (parse_metar r) as [wind_data|] eqn:Hparse.
    + destruct (IH Hall' Hnone' (dict_set metars icao wind_data)) as [H1 H2].
      split; [exact H1|]. rewrite H2.
      apply dict_get_set_other. intros ->.
      rewrite (Hnone r) in Hparse; [discriminate | now left |].
      rewrite Hr. reflexivity.
    + exact (IH Hall' Hnone' metars).
Qed.

(** X20.  Of several reports of one airport the last one that
    [parse_metar] accepts is the one returned: when every line of the
    Norwegian response has a field, a line filed under [k] that is
    accepted, and followed by no accepted line filed under [k], is what
    the dictionary holds for [k], whatever the ESKS request gives (for
    [k] other than ESKS). *)
Theorem get_all_metars_latest_report (text : string)
    (pre : list string) (report : string) (post : list string)
    (k : string) (wd : WindData) (esks : fetch) :
  split_lf (strip text) = (pre ++ report :: post)%list ->
  (forall r, In r (pre ++ report :: post)%list -> split r <> []) ->
  nth_error (split report) 0 = Some k ->
  parse_metar report = Some wd ->
  (forall r, In r post -> nth_error (split r) 0 = Some k ->
             parse_metar r = None) ->
  k <> "ESKS" ->
  dict_get (get_all_metars (Response 200 text) esks) k = Some wd.
Proof.
  intros Hsplit Hall Hkey Hparse Hnone Hk.
  unfold get_all_metars. change (200 =? 200) with true. cbv iota.
  rewrite Hsplit.
  destruct (collect_metars_prefix pre) with (rest := (report :: post)%list)
    (metars := @nil (string * WindData)) as [metars' ->].
  { intros r Hr. apply Hall. apply in_or_app. now left. }
  cbn [collect_metars]. unfold getitem. rewrite Hkey, Hparse.
  destruct (collect_metars_keeps k post) with (metars := dict_set metars' k wd)
    as [Hdone Hget]; [|exact Hnone|].
  { intros r Hr. apply Hall. apply in_or_app. right. now right. }
  rewrite dict_get_set_same in Hget.
  destruct (collect_metars post (dict_set metars' k wd)) as [metars completed].
  cbn [fst snd] in *. subst completed.
  destruct esks as [|code' text']; [exact Hget|].
  destruct (code' =? 200); [|exact Hget].
  destruct (parse_metar (strip text')); [|exact Hget].
  rewrite dict_get_set_other by exact Hk. exact Hget.
Qed.

(** X20 on a feed with two reports of ENBR, the second one accepted and
    the third without wind group. *)
Lemma get_all_metars_latest_report_witness :
  dict_get (get_all_metars (Response 200 feed_text) FetchError) "ENBR"
  = Some (mkWind (Deg 350) 12 "ENBR 121320Z 35012KT 9999").
Proof.
  apply (get_all_metars_latest_report feed_text
           ["ENBR 121250Z 17008KT 9999"; "ENGM 121250Z VRB02KT CAVOK"]
           "ENBR 121320Z 35012KT 9999"
           ["ENBR 121350Z /////KT 9999"]).
  - reflexivity.
  - intros r Hr. cbn in Hr.
    destruct Hr as [<-|[<-|[<-|[<-|[]]]]]; discriminate.
  - reflexivity.
  - reflexivity.
  - intros r [<-|[]] _. reflexivity.
  - discriminate.
Defined.

(** X21.  A line without any field ends the reading: when such a line
    follows lines that all have a field, the dictionary holds what these
    lines gave; the lines after it are not read and the ESKS request is
    not made, so neither has any influence on the result. *)
Theorem get_all_metars_line_without_field (text : string)
    (pre : list string) (report : string) (post : list string) (esks : fetch) :
  split_lf (strip text) = (pre ++ report :: post)%list ->
  (forall r, In r pre -> split r <> []) ->
  split report = [] ->
  get_all_metars (Response 200 text) esks = fst (collect_metars pre []).
Proof.
  intros Hsplit Hall Hreport.
  unfold get_all_metars. change (200 =? 200) with true. cbv iota.
  rewrite Hsplit.
  assert (Hgen : forall metars,
             collect_metars (pre ++ report :: post)%list metars
             = (fst (collect_metars pre metars), false)).
  { clear Hsplit. induction pre as [|r pre IH]; intros metars; cbn [app].
    - cbn [collect_metars]. unfold getitem. now rewrite Hreport.
    - cbn [collect_metars]. unfold getitem.
      destruct (split r) as [|icao toks] eqn:Hr;
        [exfalso; apply (Hall r); [now left | exact Hr]|].
      cbn [nth_error].
      destruct (parse_metar r); apply IH; intros r' Hr'; apply Hall;
        now right. }
  now rewrite Hgen.
Qed.

(** X21 on a Norwegian response with status 200 and a blank text: the
    dictionary is empty although the ESKS response would be accepted. *)
Lemma get_all_metars_line_without_field_witness :
  get_all_metars (Response 200 "  ") (Response 200 "ESKS 121250Z 10010KT")
  = [].
Proof.
  apply (get_all_metars_line_without_field "  " [] "" []).
  - reflexivity.
  - intros r [].
  - reflexivity.
Defined.


(** * How the selection and [main] fail *)

Lemma designator_number_raise (rwy : string) (e : exn) :
  designator_number rwy = Raise e -> e = ValueError.
Proof. unfold designator_number. apply int_raises. Qed.

Lemma runway_numbers_raise (rd : list Runway) (e : exn) :
  runway_numbers rd = Raise e -> e = ValueError /\ ~ all_numbered rd.
Proof.
  induction rd as [|r rd IH]; cbn [runway_numbers]; [discriminate|].
  destruct (designator_number (rwy1 r)) as [n1|e1] eqn:E1; cbn [rbind].
  - destruct (designator_number (rwy2 r)) as [n2|e2] eqn:E2; cbn [rbind].
    + destruct (runway_numbers rd) as [rest|e3]; cbn [rbind]; [discriminate|].
      intros H. injection H as <-. destruct (IH eq_refl) as [-> Hno].
      split; [reflexivity|]. intros Hall. apply Hno.
      now destruct (all_numbered_cons _ _ Hall) as [_ [_ ?]].
    + intros H. injection H as <-.
      split; [exact (designator_number_raise _ _ E2)|]. intros Hall.
      destruct (all_numbered_cons _ _ Hall) as [_ [H2 _]]. congruence.
  - intros H. injection H as <-.
    split; [exact (designator_number_raise _ _ E1)|]. intros Hall.
    destruct (all_numbered_cons _ _ Hall) as [H1 _]. congruence.
Qed.

Lemma runway_numbers_all (rd : list Runway) (numbers : list Z) :
  runway_numbers rd = Ok numbers -> all_numbered rd.
Proof.
  revert numbers. induction rd as [|r rd IH]; intros numbers;
    cbn [runway_numbers].
  - intros _ d [].
  - destruct (designator_number (rwy1 r)) as [n1|] eqn:E1; cbn [rbind];
      [|discriminate].
    destruct (designator_number (rwy2 r)) as [n2|] eqn:E2; cbn [rbind];
      [|discriminate].
    destruct (runway_numbers rd) as [rest|] eqn:E3; cbn [rbind];
      [|discriminate].
    intros _ d Hd. cbn in Hd. destruct Hd as [<-|[<-|Hd]]; eauto.
    exact (IH rest eq_refl d Hd).
Qed.

(** The variable-wind branch for an airport without preferred runway
    returns whenever every designator has a number. *)
Lemma lowest_numbered_returns (rd : list Runway) :
  rd <> [] -> all_numbered rd ->
  exists selected,
    (let* numbers := runway_numbers rd in
     let* lowest_rwy := py_min numbers in
     pick_lowest rd lowest_rwy None) = Ok (Some selected).
Proof.
  intros Hne Hall. rewrite (runway_numbers_ok rd Hall). cbn [rbind].
  destruct (py_min_lowest rd Hne) as [lowest [-> [_ [d [Hd Hnum]]]]].
  cbn [rbind].
  destruct (pick_lowest_last lowest rd Hall None) as [res [-> Hcase]].
  destruct Hcase as [[_ Hno]|[pre [r [post [_ [_ Hsel]]]]]].
  - exfalso. exact (Hno d Hd Hnum).
  - destruct Hsel as [[_ ->]|[_ [_ ->]]]; eauto.
Qed.

Lemma engm_prompt_raise (lines rest : list string) (e : exn) :
  engm_prompt lines = (Raise e, rest) -> e = EOFError /\ ~ answers lines.
Proof.
  intros H.
  assert (Hno : ~ answers lines).
  { intros Ha. destruct (engm_prompt_answers lines Ha) as [config [rest' E]].
    congruence. }
  rewrite (engm_prompt_no_answer lines Hno) in H. injection H as <- _. auto.
Qed.

(** Every way [select_runway] can fail on a catalog that is not empty. *)
Lemma select_runway_raise (airport : string) (runway_data : list Runway)
    (wind_data : option WindData) (w : World) (e : exn) :
  runway_data <> [] ->
  fst (select_runway airport runway_data wind_data w) = Raise e ->
  exists wd,
    wind_data = Some wd /\
    ((e = EOFError /\ engm_special airport wd = true /\ ~ answers (stdin w))
     \/ (e = ValueError /\ engm_special airport wd = false /\
         direction wd = VRB /\ dict_get PREFERRED_RUNWAYS airport = None /\
         ~ all_numbered runway_data)).
Proof.
  intros Hne. unfold select_runway.
  destruct wind_data as [wd|].
  - intros H. exists wd. split; [reflexivity|].
    destruct (engm_special airport wd) eqn:Hspecial.
    + left. unfold bind, get_engm_config in H.
      destruct (engm_prompt (stdin w)) as [[[runways mode]|e'] rest] eqn:Hp;
        cbn in H; [discriminate|].
      injection H as <-. destruct (engm_prompt_raise _ _ _ Hp). auto.
    + right. destruct (direction wd) as [|d] eqn:Hd.
      * destruct (dict_get PREFERRED_RUNWAYS airport) as [p|] eqn:Hp;
          [discriminate|].
        unfold lift in H. cbn [fst] in H.
        destruct (runway_numbers runway_data) as [numbers|e'] eqn:Hn.
        -- exfalso.
           destruct (lowest_numbered_returns runway_data Hne
                       (runway_numbers_all _ _ Hn)) as [selected Hsel].
           rewrite Hn in Hsel. cbn [rbind] in Hsel, H.
           destruct (py_min numbers) as [lowest|]; cbn [rbind] in Hsel, H;
             [|discriminate].
           rewrite Hsel in H. discriminate.
        -- cbn [rbind] in H. injection H as <-.
           destruct (runway_numbers_raise _ _ Hn) as [-> Hno]. auto.
      * cbn zeta in H.
        destruct (falsy (fst (fold_left (scan_runway d (speed wd)) runway_data
                                (None, NegInf)))); discriminate.
  - destruct (dict_get PREFERRED_RUNWAYS airport); [discriminate|].
    destruct runway_data as [|r rd]; [congruence|]. discriminate.
Qed.




(** * What [main] touches *)

Lemma same_outside_refl (names : list string) (w : World) :
  same_outside names w w.
Proof. split; auto. Qed.

Lemma same_outside_trans (names : list string) (w1 w2 w3 : World) :
  same_outside names w1 w2 -> same_outside names w2 w3 ->
  same_outside names w1 w3.
Proof.
  intros [H1 H2] [H3 H4]. split; [congruence|].
  intros name Hn. rewrite (H4 name Hn). auto.
Qed.

Lemma same_outside_files (names : list string) (w w' : World) :
  files w' = files w -> same_outside names w w'.
Proof. intros H. unfold same_outside. rewrite H. auto. Qed.

Lemma same_outside_weaken (names names' : list string) (w w' : World) :
  (forall name, In name names -> In name names') ->
  same_outside names w w' -> same_outside names' w w'.
Proof. intros Hsub [H1 H2]. split; auto. Qed.

Lemma dict_set_present {A : Type} (d : list (string * A)) (k : string) (v v' : A) :
  dict_get d k = Some v -> map fst (dict_set d k v') = map fst d.
Proof.
  induction d as [|[k0 v0] d IH]; cbn [dict_get dict_set]; [discriminate|].
  destruct (String.eqb_spec k k0) as [->|Hne]; cbn [map fst]; [reflexivity|].
  intros H. now rewrite IH.
Qed.

Lemma dict_get_keys {A : Type} (d : list (string * A)) (k : string) :
  In k (map fst d) -> exists v, dict_get d k = Some v.
Proof.
  induction d as [|[k0 v0] d IH]; cbn [map fst In dict_get]; [intros []|].
  destruct (String.eqb_spec k k0) as [->|Hne]; [eauto|].
  intros [E|H]; [congruence | auto].
Qed.

(** Writing a file that has been read changes that file only. *)
Lemma same_outside_write (f text text' : string) (w : World) :
  dict_get (files w) f = Some text ->
  same_outside [f] w (mkWorld (dict_set (files w) f text') (stdin w)).
Proof.
  intros Hf. split; cbn [files].
  - exact (dict_set_present _ _ _ _ Hf).
  - intros name Hn. apply dict_get_set_other. intros ->. apply Hn. now left.
Qed.

Lemma update_rwy_file_frame (f airport : string) (runway : selection)
    (w : World) :
  same_outside [f] w (snd (update_rwy_file f airport runway w)).
Proof.
  destruct (dict_get (files w) f) as [text|] eqn:Hf.
  - rewrite (update_rwy_file_run _ _ _ _ _ Hf). cbn [snd].
    exact (same_outside_write _ _ _ _ Hf).
  - unfold update_rwy_file, bind, read_lines. rewrite Hf.
    apply same_outside_refl.
Qed.

Lemma lift_write_frame (f text : string) (r : result (list string))
    (w : World) :
  dict_get (files w) f = Some text ->
  same_outside [f] w
    (snd ((new_lines <- lift r ;; write_lines f new_lines) w)).
Proof.
  intros Hf. unfold bind, lift, write_lines.
  destruct r as [new_lines|e]; cbn [snd].
  - exact (same_outside_write _ _ _ _ Hf).
  - apply same_outside_refl.
Qed.

Lemma update_engm_runways_frame (f : string) (runways : list string)
    (mode : string) (w : World) :
  same_outside [f] w (snd (update_engm_runways f runways mode w)).
Proof.
  unfold update_engm_runways, bind at 1, read_lines.
  destruct (dict_get (files w) f) as [text|] eqn:Hf;
    [|apply same_outside_refl].
  destruct (find_engm_lines (readlines text) 0 None None) as [[a|] [b|]];
    try apply same_outside_refl.
  exact (lift_write_frame f text _ w Hf).
Qed.

Section Frame.

Variable names : list string.

Lemma bind_frame {A B : Type} (m : M A) (k : A -> M B) :
  (forall w, same_outside names w (snd (m w))) ->
  (forall a w, same_outside names w (snd (k a w))) ->
  forall w, same_outside names w (snd (bind m k w)).
Proof.
  intros Hm Hk w. unfold bind. specialize (Hm w).
  destruct (m w) as [[a|e] w1]; cbn [snd] in *; [|exact Hm].
  exact (same_outside_trans _ _ _ _ Hm (Hk a w1)).
Qed.

Lemma for_each_frame {A : Type} (xs : list A) (body : A -> M unit) :
  (forall x, In x xs -> forall w, same_outside names w (snd (body x w))) ->
  forall w, same_outside names w (snd (for_each xs body w)).
Proof.
  induction xs as [|x xs IH]; intros Hbody w; cbn [for_each].
  - apply same_outside_refl.
  - apply bind_frame.
    + apply Hbody. now left.
    + intros _ w1. apply IH. intros y Hy. apply Hbody. now right.
Qed.

End Frame.

Lemma process_airport_frame (rwy_files : list string)
    (all_metars : list (string * WindData)) (airport : string)
    (runway_data : list Runway) (w : World) :
  same_outside rwy_files w
    (snd (process_airport rwy_files all_metars airport runway_data w)).
Proof.
  unfold process_airport.
  destruct (mem airport IGNORED_AIRPORTS); [apply same_outside_refl|].
  destruct (dict_get all_metars airport) as [wd|]; [|apply same_outside_refl].
  apply bind_frame.
  - intros w0. apply same_outside_files. apply select_runway_files.
  - intros [[selected message] flag] w0. apply for_each_frame.
    intros f Hf w1.
    apply (same_outside_weaken [f]);
      [intros name [<-|[]]; exact Hf|].
    destruct selected as [|s|runways];
      try apply update_rwy_file_frame.
    destruct (String.eqb airport "ENGM");
      [apply update_engm_runways_frame | apply update_rwy_file_frame].
Qed.

Lemma wait_enter_files (w : World) : files (snd (wait_enter w)) = files w.
Proof.
  unfold wait_enter, input. now destruct (stdin w).
Qed.

Lemma main_frame (runways : list (string * list Runway))
    (all_metars : list (string * WindData)) (w : World) :
  same_outside (filter (fun f => endswith f ".rwy") (map fst (files w))) w
    (snd (main runways all_metars w)).
Proof.
  unfold main, bind at 1, list_rwy_files.
  set (rwy_files := filter (fun f => endswith f ".rwy") (map fst (files w))).
  destruct rwy_files as [|f fs] eqn:E; [apply same_outside_refl|].
  rewrite <- E. clear E. generalize rwy_files. clear rwy_files.
  intros rwy_files. revert w.
  apply bind_frame.
  - apply for_each_frame. intros entry _ w.
    apply process_airport_frame.
  - intros _ w. apply same_outside_files. apply wait_enter_files.
Qed.

Lemma parse_runways_world (filename : string) (w : World) :
  snd (parse_runways filename w) = w.
Proof.
  unfold parse_runways, bind, read_lines, lift.
  now destruct (dict_get (files w) filename).
Qed.

(** X23.  Whatever the catalog, the two responses and the typed lines
    are, and whether the run ends normally or with an exception, [main]
    creates and removes no file, and changes no file whose name does not
    end in [.rwy]; in particular [runway.txt] is only read. *)
Theorem main_touches_only_rwy_files (norway esks : fetch) (w : World) :
  map fst (files (snd (main_from_start norway esks w))) = map fst (files w) /\
  forall name,
    endswith name ".rwy" = false ->
    dict_get (files (snd (main_from_start norway esks w))) name
    = dict_get (files w) name.
Proof.
  assert (H : same_outside
                (filter (fun f => endswith f ".rwy") (map fst (files w))) w
                (snd (main_from_start norway esks w))).
  { unfold main_from_start, bind.
    pose proof (parse_runways_world "runway.txt" w) as Hw.
    destruct (parse_runways "runway.txt" w) as [[runways|e] w0];
      cbn [snd] in *; subst w0; [apply main_frame | apply same_outside_refl]. }
  destruct H as [H1 H2]. split; [exact H1|].
  intros name Hname. apply H2. intros Hin. apply filter_In in Hin.
  destruct Hin as [_ Hin]. congruence.
Qed.

(** ** Where [main] can fail *)

Section Writers.

Variable rwy_files : list string.

(** Every target file is in the directory. *)
Let listed (w : World) : Prop :=
  forall f, In f rwy_files -> In f (map fst (files w)).

Lemma listed_same_outside (w w' : World) :
  same_outside rwy_files w w' -> listed w -> listed w'.
Proof. intros [H _] Hl f Hf. rewrite H. auto. Qed.

Lemma for_each_writers (body : string -> M unit) :
  (forall f w, In f (map fst (files w)) -> fst (body f w) = Ok tt) ->
  (forall f w, same_outside [f] w (snd (body f w))) ->
  forall fs w,
    (forall f, In f fs -> In f (map fst (files w))) ->
    fst (for_each fs body w) = Ok tt.
Proof.
  intros Hok Hframe fs. induction fs as [|f fs IH]; intros w Hin;
    cbn [for_each]; [reflexivity|].
  unfold bind. specialize (Hok f w (Hin f (or_introl eq_refl))).
  specialize (Hframe f w).
  destruct (body f w) as [[[]|e] w1]; cbn [fst snd] in *; [|discriminate].
  apply IH. intros g Hg. destruct Hframe as [Hnames _]. rewrite Hnames.
  apply Hin. now right.
Qed.

Lemma update_rwy_file_ok (f airport : string) (runway : selection) (w : World) :
  In f (map fst (files w)) -> fst (update_rwy_file f airport runway w) = Ok tt.
Proof.
  intros Hin. destruct (dict_get_keys _ _ Hin) as [text Hf].
  now rewrite (update_rwy_file_run _ _ _ _ _ Hf).
Qed.

Lemma update_engm_runways_ok (f choice : string) (w : World) :
  valid_choice choice = true ->
  In f (map fst (files w)) ->
  fst (update_engm_runways f (fst (engm_config choice))
         (if contains "Segregated"
               ("Using " ++ snd (engm_config choice) ++ " mode with runways "
                  ++ join ", " (fst (engm_config choice)))
          then "SPO"
          else if contains "MPO"
                    ("Using " ++ snd (engm_config choice)
                       ++ " mode with runways "
                       ++ join ", " (fst (engm_config choice)))
               then "MPO" else "SRO") w) = Ok tt.
Proof.
  intros Hvalid Hin. destruct (dict_get_keys _ _ Hin) as [text Hf].
  unfold update_engm_runways, bind.
  rewrite (read_lines_found f text w Hf).
  destruct (find_engm_lines (readlines text) 0 None None) as [[a|] [b|]];
    try reflexivity.
  destruct (valid_choice_cases _ Hvalid) as [-> | [-> | [-> | [-> | [-> | ->]]]]];
    reflexivity.
Qed.

Lemma engm_prompt_ok (lines rest : list string) (config : list string * string) :
  engm_prompt lines = (Ok config, rest) ->
  exists choice, valid_choice choice = true /\ config = engm_config choice.
Proof.
  induction lines as [|line lines IH]; cbn [engm_prompt]; [discriminate|].
  destruct (mem line ["1"; "2"; "3"; "4"; "5"; "6"]) eqn:Hline; [|exact IH].
  intros H. injection H as <- _. exists line. split; [exact Hline | reflexivity].
Qed.

(** The loop body of [main] fails only where the selection fails. *)
Lemma process_airport_raise (all_metars : list (string * WindData))
    (airport : string) (runway_data : list Runway) (w : World) (e : exn) :
  listed w ->
  fst (process_airport rwy_files all_metars airport runway_data w) = Raise e ->
  exists wd,
    mem airport IGNORED_AIRPORTS = false /\
    dict_get all_metars airport = Some wd /\
    fst (select_runway airport runway_data (Some wd) w) = Raise e.
Proof.
  intros Hl. unfold process_airport.
  destruct (mem airport IGNORED_AIRPORTS); [discriminate|].
  destruct (dict_get all_metars airport) as [wd|]; [|discriminate].
  intros H. exists wd. split; [reflexivity|]. split; [reflexivity|].
  unfold bind in H.
  pose proof (select_runway_files airport runway_data (Some wd) w) as Hfiles.
  destruct (select_runway airport runway_data (Some wd) w)
    as [[[[selected message] flag]|e'] w1] eqn:Hsel; cbn [fst snd] in *;
    [exfalso|congruence].
  assert (Hl1 : forall f, In f rwy_files -> In f (map fst (files w1)))
    by (rewrite Hfiles; exact Hl).
  assert (Hplain : fst (for_each rwy_files
                          (fun f => update_rwy_file f airport selected) w1)
                   = Ok tt).
  { apply for_each_writers; auto.
    - intros f w0. apply update_rwy_file_ok.
    - intros f w0. apply update_rwy_file_frame. }
  destruct selected as [|s|runways]; try congruence.
  destruct (String.eqb airport "ENGM") eqn:Hengm; [|congruence].
  (* the list comes from the prompt *)
  unfold select_runway in Hsel.
  destruct (engm_special airport wd).
  - unfold bind, get_engm_config in Hsel.
    destruct (engm_prompt (stdin w)) as [[[runways' mode]|e'] rest] eqn:Hp;
      [|discriminate].
    destruct (engm_prompt_ok _ _ _ Hp) as [choice [Hvalid Hconfig]].
    unfold ret in Hsel. injection Hsel as <- <- _ _.
    assert (Hr : runways' = fst (engm_config choice)) by now rewrite <- Hconfig.
    assert (Hm : mode = snd (engm_config choice)) by now rewrite <- Hconfig.
    subst runways' mode.
    rewrite for_each_writers in H; [discriminate| | |exact Hl1].
    + intros f w0. now apply update_engm_runways_ok.
    + intros f w0. apply update_engm_runways_frame.
  - destruct (direction wd).
    + destruct (dict_get PREFERRED_RUNWAYS airport).
      * unfold ret in Hsel. discriminate.
      * unfold lift in Hsel.
        destruct (runway_numbers runway_data) as [numbers|]; cbn [rbind] in Hsel;
          [|discriminate].
        destruct (py_min numbers) as [lowest|]; cbn [rbind] in Hsel;
          [|discriminate].
        destruct (pick_lowest runway_data lowest None) as [[sel|]|];
          cbn [rbind] in Hsel; discriminate.
    + cbn zeta in Hsel. unfold ret in Hsel.
      destruct (falsy (fst (fold_left (scan_runway d (speed wd)) runway_data
                              (None, NegInf)))).
      * injection Hsel as Hsel _ _ _.
        destruct (fst (fold_left (fallback_runway d (speed wd)) runway_data
                         (fst (fold_left (scan_runway d (speed wd)) runway_data
                                 (None, NegInf)), PosInf))); discriminate.
      * injection Hsel as Hsel _ _ _.
        destruct (fst (fold_left (scan_runway d (speed wd)) runway_data
                         (None, NegInf))); discriminate.
Qed.

Lemma for_each_process_airport_raise (all_metars : list (string * WindData))
    (runways : list (string * list Runway)) :
  forall w e,
    listed w ->
    fst (for_each runways (fun entry =>
           process_airport rwy_files all_metars (fst entry) (snd entry)) w)
    = Raise e ->
    exists airport runway_data wd w0,
      In (airport, runway_data) runways /\
      mem airport IGNORED_AIRPORTS = false /\
      dict_get all_metars airport = Some wd /\
      map fst (files w0) = map fst (files w) /\
      fst (select_runway airport runway_data (Some wd) w0) = Raise e.
Proof.
  induction runways as [|[airport runway_data] runways IH]; intros w e Hl;
    cbn [for_each]; [discriminate|].
  unfold bind. cbn [fst snd].
  pose proof (process_airport_frame rwy_files all_metars airport runway_data w)
    as Hframe.
  pose proof (process_airport_raise all_metars airport runway_data w) as Hraise.
  destruct (process_airport rwy_files all_metars airport runway_data w)
    as [[[]|e'] w1]; cbn [fst snd] in *.
  - intros H.
    destruct (IH w1 e (listed_same_outside _ _ Hframe Hl) H)
      as [a [rd [wd [w0 [Hin [Hi [Hm [Hn Hs]]]]]]]].
    exists a, rd, wd, w0.
    split; [now right|]. split; [exact Hi|]. split; [exact Hm|].
    split; [|exact Hs]. destruct Hframe as [Hnames _]. congruence.
  - intros H. injection H as <-.
    destruct (Hraise e' Hl eq_refl) as [wd [Hi [Hm Hs]]].
    exists airport, runway_data, wd, w.
    split; [now left|]. auto.
Qed.

End Writers.

Lemma main_raise (runways : list (string * list Runway))
    (all_metars : list (string * WindData)) (w : World) (e : exn) :
  fst (main runways all_metars w) = Raise e ->
  exists airport runway_data wd w0,
    In (airport, runway_data) runways /\
    mem airport IGNORED_AIRPORTS = false /\
    dict_get all_metars airport = Some wd /\
    map fst (files w0) = map fst (files w) /\
    fst (select_runway airport runway_data (Some wd) w0) = Raise e.
Proof.
  unfold main, bind at 1, list_rwy_files.
  set (rwy_files := filter (fun f => endswith f ".rwy") (map fst (files w))).
  assert (Hl : forall f, In f rwy_files -> In f (map fst (files w))).
  { intros f Hf. apply filter_In in Hf. tauto. }
  destruct rwy_files as [|f fs] eqn:E; [discriminate|].
  rewrite <- E in *. clear E.
  unfold bind. intros H.
  apply (for_each_process_airport_raise rwy_files all_metars runways w e Hl).
  destruct (for_each runways
              (fun entry =>
                 process_airport rwy_files all_metars (fst entry) (snd entry)) w)
    as [[[]|e'] w1]; cbn [fst] in *; [|exact H].
  unfold wait_enter in H. destruct (input w1). discriminate.
Qed.



(** X25.  The whole run, from reading [runway.txt] on, ends with
    [FileNotFoundError] exactly when [runway.txt] is missing, and with no
    exception other than [FileNotFoundError], [ValueError] and
    [EOFError]: [IndexError], [UnboundLocalError] and [TypeError] never
    leave [main].  (Floats being idealised, the [OverflowError] of a
    heading beyond the range of a float is outside the model, as are the
    errors of the operating system other than a missing file.) *)
Theorem main_from_start_failures (norway esks : fetch) (w : World) :
  (fst (main_from_start norway esks w) = Raise FileNotFoundError <->
   dict_get (files w) "runway.txt" = None) /\
  forall e,
    fst (main_from_start norway esks w) = Raise e ->
    e = FileNotFoundError \/ e = ValueError \/ e = EOFError.
Proof.
  assert (Hmain : forall catalog e,
            parse_runways "runway.txt" w = (Ok catalog, w) ->
            fst (main catalog (get_all_metars norway esks) w) = Raise e ->
            e = EOFError \/ e = ValueError).
  { intros catalog e Hparse H.
    destruct (main_raise _ _ _ _ H) as [a [rd [wd [w0 [Hin [_ [_ [_ Hs]]]]]]]].
    destruct (parse_runways_run _ _ _ _ Hparse) as [_ [text [_ Hl]]].
    destruct (parse_runways_lines_spec _ _ _ Hl) as [_ [Hall _]];
      [constructor | constructor |].
    rewrite Forall_forall in Hall. destruct (Hall _ Hin) as [Hne _].
    destruct (select_runway_raise _ _ _ _ _ Hne Hs) as [wd0 [_ Hcase]].
    destruct Hcase as [[-> _]|[-> _]]; auto. }
  unfold main_from_start, bind.
  pose proof (parse_runways_world "runway.txt" w) as Hw.
  destruct (parse_runways "runway.txt" w) as [[catalog|e0] w0] eqn:Hparse;
    cbn [snd] in Hw; subst w0.
  - assert (Hf : dict_get (files w) "runway.txt" <> None).
    { destruct (parse_runways_run _ _ _ _ Hparse) as [_ [text [Hf _]]].
      congruence. }
    split.
    + split; [|intros E; congruence].
      intros H. destruct (Hmain catalog _ eq_refl H); discriminate.
    + intros e H. destruct (Hmain catalog e eq_refl H); auto.
  - cbn [fst].
    unfold parse_runways, bind, read_lines, lift in Hparse.
    destruct (dict_get (files w) "runway.txt") as [text|] eqn:Hf.
    + destruct (parse_runways_lines (readlines text) []) as [c|e1] eqn:Hl;
        [discriminate|].
      injection Hparse as <-.
      apply parse_runways_lines_raise in Hl. destruct Hl as [line [_ Hr]].
      apply runway_of_line_raise in Hr. destruct Hr as [-> _].
      split; [split; discriminate|]. intros e H. injection H as <-. auto.
    + injection Hparse as <-.
      split; [split; reflexivity|]. intros e H. injection H as <-. auto.
Qed.
